(** * StudyMate: chunking, retrieval and question answering

    A shallow embedding of the core of the StudyMate sources
    ([src/pdf_processor.py], [src/semantic_search.py],
    [src/llm_integration.py], [src/qa_system.py]) together with the
    properties established about it.

    Modelling conventions.
    - A Python [str] is a [list ascii]; a character is read as the code
      point 0..255 it denotes.
    - A Python [int] is a [Z]; [len] returns a [Z].
    - A similarity score (a finite float) is a rational [Q]; only its order
      is used by the code.
    - A Python [dict] keyed by document id is an association list in
      insertion order.
    - The embedding model, the FAISS index, the file system, the clock and
      the language model are collaborators outside the repository: their
      answers are inputs of the functions that call them. *)

From Stdlib Require Import ZArith QArith Lia List Ascii String.
From stdpp Require Import base list sorting gmap.

Local Open Scope Z_scope.
Local Open Scope list_scope.

(** ** Python primitives used by the sources *)

Module Py.

Definition len {A} (l : list A) : Z := Z.of_nat (List.length l).

(** Index normalisation of a slice bound ([PySlice_AdjustIndices], step 1). *)
Definition adjust_index (n i : Z) : Z :=
  if i <? 0 then Z.max 0 (i + n) else Z.min i n.

(** [l[a:b]] *)
Definition slice {A} (l : list A) (a b : Z) : list A :=
  let a' := adjust_index (len l) a in
  let b' := adjust_index (len l) b in
  take (Z.to_nat (b' - a')) (drop (Z.to_nat a') l).

(** [l[:n]] *)
Definition prefix {A} (l : list A) (n : Z) : list A := slice l 0 n.

(** [l[i]]: [None] stands for [IndexError]. *)
Definition index {A} (l : list A) (i : Z) : option A :=
  if (i <? - len l) || (len l <=? i) then None
  else if i <? 0 then l !! Z.to_nat (i + len l)
  else l !! Z.to_nat i.

(** [str.isspace] of one character, on the code points 0..255. *)
Definition is_space (c : ascii) : bool :=
  let n := Z.of_N (N_of_ascii c) in
  ((9 <=? n) && (n <=? 13)) || ((28 <=? n) && (n <=? 32))
  || (n =? 133) || (n =? 160).

(** [\w] of [re] on [str] patterns: alphanumeric or underscore, on the
    code points 0..255. *)
Definition is_word (c : ascii) : bool :=
  let n := Z.of_N (N_of_ascii c) in
  ((48 <=? n) && (n <=? 57)) || ((65 <=? n) && (n <=? 90))
  || ((97 <=? n) && (n <=? 122)) || (n =? 95)
  || (n =? 170) || (n =? 178) || (n =? 179) || (n =? 181)
  || (n =? 185) || (n =? 186) || ((188 <=? n) && (n <=? 190))
  || ((192 <=? n) && (n <=? 214)) || ((216 <=? n) && (n <=? 246))
  || ((248 <=? n) && (n <=? 255)).

Fixpoint lstrip (l : list ascii) : list ascii :=
  match l with
  | [] => []
  | c :: l' => if is_space c then lstrip l' else l
  end.

Definition rstrip (l : list ascii) : list ascii := rev (lstrip (rev l)).

(** [s.strip()] *)
Definition strip (l : list ascii) : list ascii := rstrip (lstrip l).

(** Scan for the last occurrence of [c]; [i] is the index of the head of
    [l] and [best] the last match seen so far. *)
Fixpoint rfind_scan (c : ascii) (l : list ascii) (i best : Z) : Z :=
  match l with
  | [] => best
  | x :: l' => rfind_scan c l' (i + 1) (if Ascii.eqb x c then i else best)
  end.

(** [s.rfind(c, a, b)] for a one-character needle. *)
Definition rfind (s : list ascii) (c : ascii) (a b : Z) : Z :=
  rfind_scan c (slice s a b) (adjust_index (len s) a) (-1).

(** [s.split(sep)] for a one-character separator. *)
Fixpoint split (sep : ascii) (l : list ascii) : list (list ascii) :=
  match l with
  | [] => [[]]
  | c :: l' =>
      if Ascii.eqb c sep then [] :: split sep l'
      else match split sep l' with
           | h :: t => (c :: h) :: t
           | [] => [[c]]
           end
  end.

(** [sep.join(ls)] *)
Fixpoint join (sep : list ascii) (ls : list (list ascii)) : list ascii :=
  match ls with
  | [] => []
  | [x] => x
  | x :: rest => x ++ sep ++ join sep rest
  end.

(** [re.sub(r'\s+', ' ', s)]: every maximal run of whitespace becomes one
    space; [in_run] tells that the previous character was whitespace. *)
Fixpoint sub_space_runs (in_run : bool) (l : list ascii) : list ascii :=
  match l with
  | [] => []
  | c :: l' =>
      if is_space c
      then (if in_run then sub_space_runs true l'
            else " "%char :: sub_space_runs true l')
      else c :: sub_space_runs false l'
  end.

End Py.

(** ** [pdf_processor.py] *)

(** A chunk dictionary.  The first five keys are set by [chunk_text]; the
    last three are added to copies by the search engine. *)
Record Chunk := mkChunk {
  c_id : Z;
  c_text : list ascii;
  c_start_pos : Z;
  c_end_pos : Z;
  c_length : Z;
  c_similarity_score : option Q;
  c_rank : option Z;
  c_is_context : option bool
}.

Record PDFProcessor := mkPDFProcessor {
  chunk_size : Z;
  overlap : Z
}.

(** [PDFProcessor.__init__] *)
Definition PDFProcessor_init : PDFProcessor :=
  {| chunk_size := 500; overlap := 50 |}.

(** The character class [[^\w\s\.\,\!\?\;\:\-\(\)]] is removed: a character
    is kept when it is outside of it. *)
Definition kept_char (c : ascii) : bool :=
  Py.is_word c || Py.is_space c
  || existsb (Ascii.eqb c) (list_ascii_of_string ".,!?;:-()").

Definition collapse_and_clean (text : list ascii) : list ascii :=
  List.filter kept_char (Py.sub_space_runs false text).

(** [PDFProcessor.preprocess_text] *)
Definition preprocess_text (text : list ascii) : list ascii :=
  let text := Py.sub_space_runs false text in
  let text := List.filter kept_char text in
  let lines := Py.split "010"%char text in
  let cleaned_lines :=
    fold_left
      (fun cleaned_lines line =>
         let line := Py.strip line in
         if 10 <? Py.len line then cleaned_lines ++ [line] else cleaned_lines)
      lines [] in
  let text := Py.join [" "%char] cleaned_lines in
  Py.strip text.

(** The variables of the [while] loop of [chunk_text]. *)
Record ChunkLoop := mkChunkLoop {
  cl_start : Z;
  cl_chunk_id : Z;
  cl_chunks : list Chunk
}.

(** The characters that [chunk_text] looks for with [rfind]. *)
Definition is_terminator (c : ascii) : bool :=
  existsb (Ascii.eqb c) (list_ascii_of_string ".!?").

(** The windows [(start, end)] that [chunk_text] visits on 1200 characters
    without a terminator. *)
Definition windows_1200 : list (Z * Z) := [(0, 500); (500, 1000); (1000, 1200)].

(** The value of [end] after the sentence-boundary search. *)
Definition chunk_end (self : PDFProcessor) (text : list ascii) (start : Z) : Z :=
  let text_length := Py.len text in
  let end_ := Z.min (start + chunk_size self) text_length in
  if end_ <? text_length then
    let last_period := Py.rfind text "."%char start end_ in
    let last_exclamation := Py.rfind text "!"%char start end_ in
    let last_question := Py.rfind text "?"%char start end_ in
    let sentence_end := Z.max (Z.max last_period last_exclamation) last_question in
    if start + chunk_size self / 2 <? sentence_end then sentence_end + 1 else end_
  else end_.

(** One iteration of the loop body. *)
Definition chunk_body (self : PDFProcessor) (text : list ascii) (st : ChunkLoop)
  : ChunkLoop :=
  let start := cl_start st in
  let end_ := chunk_end self text start in
  let chunk_text := Py.strip (Py.slice text start end_) in
  let start' := Z.max (start + chunk_size self - overlap self) end_ in
  match chunk_text with
  | [] => {| cl_start := start'; cl_chunk_id := cl_chunk_id st;
             cl_chunks := cl_chunks st |}
  | _ :: _ =>
      {| cl_start := start';
         cl_chunk_id := cl_chunk_id st + 1;
         cl_chunks := cl_chunks st ++
           [ {| c_id := cl_chunk_id st; c_text := chunk_text;
                c_start_pos := start; c_end_pos := end_;
                c_length := Py.len chunk_text;
                c_similarity_score := None; c_rank := None;
                c_is_context := None |} ] |}
  end.

(** The [while start < text_length] loop; [None] when the fuel runs out
    before the loop condition fails. *)
Fixpoint chunk_loop (fuel : nat) (self : PDFProcessor) (text : list ascii)
  (st : ChunkLoop) : option (list Chunk) :=
  match fuel with
  | O => None
  | S fuel' =>
      if cl_start st <? Py.len text
      then chunk_loop fuel' self text (chunk_body self text st)
      else Some (cl_chunks st)
  end.

Definition chunk_loop_init : ChunkLoop :=
  {| cl_start := 0; cl_chunk_id := 0; cl_chunks := [] |}.

(** [PDFProcessor.chunk_text] *)
Definition chunk_text (self : PDFProcessor) (text : list ascii)
  : option (list Chunk) :=
  chunk_loop (S (List.length text)) self text chunk_loop_init.


(** ** [semantic_search.py] *)

(** What [index.search] hands back for one query: [scores[0]] zipped with
    [indices[0]], best first; a label [-1] fills a slot without a vector. *)
Definition Hits := list (Q * Z).

(** The embedding model together with the FAISS inner-product index.  Both
    are outside the repository; [None] stands for a raised exception. *)
Class VectorIndex (Index : Type) := {
  (** [faiss.IndexFlatIP(dimension)] *)
  index_new : Index;
  (** [index.ntotal] *)
  index_ntotal : Index -> Z;
  (** [encode_texts(texts)] followed by [index.add] *)
  index_add : Index -> list (list ascii) -> option Index;
  (** [encode_texts([query])] followed by [index.search(_, k)] *)
  index_search : Index -> list ascii -> Z -> option Hits
}.

(** Scores never increase along the hit list. *)
Definition hits_descending (hits : Hits) : Prop :=
  StronglySorted (fun a b => (b.1 <= a.1)%Q) hits.

(** Once a padding label [-1] appears, only padding follows. *)
Definition padding_last (hits : Hits) : Prop :=
  forall (i j : nat) (a b : Q * Z),
    hits !! i = Some a -> hits !! j = Some b -> (i < j)%nat ->
    a.2 = -1 -> b.2 = -1.

(** The result contract of [IndexFlatIP.search]. *)
Definition faiss_ordered (hits : Hits) : Prop :=
  hits_descending hits /\ padding_last hits.

Definition dict (V : Type) := list (string * V).

Fixpoint dict_get {V} (d : dict V) (k : string) : option V :=
  match d with
  | [] => None
  | (k', v) :: d' => if String.eqb k k' then Some v else dict_get d' k
  end.

(** [d[k] = v]: a present key keeps its position, a new key goes last. *)
Fixpoint dict_set {V} (d : dict V) (k : string) (v : V) : dict V :=
  match d with
  | [] => [(k, v)]
  | (k', v') :: d' =>
      if String.eqb k k' then (k, v) :: d' else (k', v') :: dict_set d' k v
  end.

(** The dictionary of [get_document_metadata]; an absent key is [None]. *)
Record Metadata := mkMetadata {
  m_title : option (list ascii);
  m_author : option (list ascii);
  m_subject : option (list ascii);
  m_creator : option (list ascii);
  m_producer : option (list ascii);
  m_creation_date : option (list ascii);
  m_modification_date : option (list ascii);
  m_page_count : option Z
}.

(** [{}] *)
Definition empty_metadata : Metadata :=
  mkMetadata None None None None None None None None.

Section SemanticSearch.
Context {Index : Type} `{VectorIndex Index}.

Record SemanticSearchEngine := mkEngine {
  se_index : Index;
  se_chunks : list Chunk
}.

(** [SemanticSearchEngine.__init__] once the model is loaded. *)
Definition SemanticSearchEngine_init : SemanticSearchEngine :=
  {| se_index := index_new; se_chunks := [] |}.

(** [build_index]: [None] when encoding or adding raises. *)
Definition build_index (self : SemanticSearchEngine) (chunks : list Chunk)
  : option SemanticSearchEngine :=
  let texts := List.map c_text chunks in
  match index_add (se_index self) texts with
  | None => None
  | Some index' => Some {| se_index := index'; se_chunks := chunks |}
  end.

(** The [for i, (score, idx) in enumerate(zip(scores[0], indices[0]))]
    loop of [search]; [i] is the position of the head of [hits] and
    [None] stands for the [IndexError] of [self.chunks[idx]]. *)
Fixpoint search_loop (chunks : list Chunk) (score_threshold : Q) (i : Z)
  (hits : Hits) (results : list Chunk) : option (list Chunk) :=
  match hits with
  | [] => Some results
  | (score, idx) :: hits' =>
      if negb (idx =? -1) && Qle_bool score_threshold score then
        match Py.index chunks idx with
        | None => None
        | Some chunk =>
            let chunk :=
              {| c_id := c_id chunk; c_text := c_text chunk;
                 c_start_pos := c_start_pos chunk;
                 c_end_pos := c_end_pos chunk; c_length := c_length chunk;
                 c_similarity_score := Some score;
                 c_rank := Some (i + 1);
                 c_is_context := c_is_context chunk |} in
            search_loop chunks score_threshold (i + 1) hits' (results ++ [chunk])
        end
      else search_loop chunks score_threshold (i + 1) hits' results
  end.

(** [SemanticSearchEngine.search]; every exception ends in [return []]. *)
Definition search (self : SemanticSearchEngine) (query : list ascii) (k : Z)
  (score_threshold : Q) : list Chunk :=
  if index_ntotal (se_index self) =? 0 then []
  else
    match index_search (se_index self) query k with
    | None => []
    | Some hits =>
        match search_loop (se_chunks self) score_threshold 0 hits [] with
        | None => []
        | Some results => results
        end
    end.

(** The set built by the first loop of [get_context_window]. *)
Definition expanded_ids (n : Z) (chunk_ids : list Z) (window_size : Z) : gset Z :=
  fold_left
    (fun (expanded_ids : gset Z) chunk_id =>
       fold_left (fun (s : gset Z) i => s ∪ {[ i ]})
         (seqZ (Z.max 0 (chunk_id - window_size))
               (Z.min n (chunk_id + window_size + 1)
                - Z.max 0 (chunk_id - window_size)))
         (expanded_ids ∪ {[ chunk_id ]}))
    chunk_ids ∅.

(** [sorted(s)] on a set of integers. *)
Definition sorted (s : gset Z) : list Z := merge_sort Z.le (elements s).

(** [SemanticSearchEngine.get_context_window]; [None] stands for the
    [IndexError] of [self.chunks[chunk_id]]. *)
Definition get_context_window (self : SemanticSearchEngine)
  (chunks : list Chunk) (window_size : Z) : option (list Chunk) :=
  match chunks with
  | [] => Some []
  | _ :: _ =>
      let chunk_ids := List.map c_id chunks in
      let ids := expanded_ids (Py.len (se_chunks self)) chunk_ids window_size in
      mapM
        (fun chunk_id =>
           match Py.index (se_chunks self) chunk_id with
           | None => None
           | Some chunk =>
               Some {| c_id := c_id chunk; c_text := c_text chunk;
                       c_start_pos := c_start_pos chunk;
                       c_end_pos := c_end_pos chunk;
                       c_length := c_length chunk;
                       c_similarity_score := c_similarity_score chunk;
                       c_rank := c_rank chunk;
                       c_is_context :=
                         Some (bool_decide (chunk_id ∉ chunk_ids)) |}
           end)
        (sorted ids)
  end.

End SemanticSearch.

(** How a call that may raise ended. *)
Inductive completion := Returns | Raises.

(** The collaborators other than the index: the model loader, the file
    system, the PDF reader, the clock and the language model. *)
Record Environment := mkEnvironment {
  (** [SemanticSearchEngine()] constructs: the model loads *)
  model_loads : bool;
  (** [save_index(os.path.join(storage_path, doc_id))] completes *)
  index_saved : string -> string -> bool;
  (** [np.datetime64('now')], [datetime.now().isoformat()] *)
  now : list ascii;
  (** [_generate_document_id(filepath)] *)
  document_id_of : string -> string;
  (** [get_document_metadata(pdf_path)] *)
  metadata_of : string -> Metadata;
  (** [extract_text_from_pdf(pdf_path)]; [None] when it raises *)
  text_of : string -> option (list ascii);
  (** The model call of [generate_answer] on the prompt made from the
      question, the first five context chunks and the title; the first
      argument is [use_watson]. *)
  llm_answer : bool -> list ascii -> list Chunk -> list ascii -> option (list ascii);
  (** [generate_follow_up_questions(question, answer, context_chunks)] *)
  llm_follow_ups : bool -> list ascii -> list ascii -> list Chunk -> list (list ascii)
}.

Record DocInfo := mkDocInfo {
  d_chunks : list Chunk;
  d_metadata : Metadata;
  d_created_at : list ascii
}.

(** One entry of [get_document_list]. *)
Record DocListing := mkDocListing {
  l_id : string;
  l_metadata : Metadata;
  l_chunk_count : Z;
  l_created_at : list ascii
}.

(** One entry of the ['sources'] list of an answer. *)
Record Source := mkSource {
  s_chunk_id : Z;
  s_similarity_score : Q;
  s_text_preview : list ascii
}.

(** The dictionary returned by [generate_answer]. *)
Record AnswerResult := mkAnswerResult {
  a_answer : list ascii;
  a_question : list ascii;
  a_document_title : list ascii;
  a_context_chunks_used : Z;
  a_model_used : string;
  a_timestamp : list ascii;
  a_sources : list Source
}.

Record ConversationEntry := mkConversationEntry {
  h_question : list ascii;
  h_answer : list ascii;
  h_timestamp : list ascii;
  h_document_id : string
}.

(** The successful result of [ask_question]. *)
Record Answered := mkAnswered {
  q_question : list ascii;
  q_answer : list ascii;
  q_document_id : string;
  q_document_title : list ascii;
  q_sources : list Source;
  q_context_chunks_used : Z;
  q_follow_up_questions : list (list ascii);
  q_model_used : string;
  q_timestamp : list ascii
}.

Definition msg_no_document : string :=
  "No document selected. Please upload a document first.".
Definition msg_no_context : string :=
  "No relevant information found in the document.".

(** The three [return] statements of the [try] block of [ask_question]. *)
Inductive AskResult :=
| AskNoDocument (message : string) (question : list ascii)
| AskNoContext (message : string) (question : list ascii) (document_id : string)
| AskAnswered (result : Answered).

(** The ['success'] key. *)
Definition ask_success (r : AskResult) : bool :=
  match r with
  | AskNoDocument _ _ => false
  | AskNoContext _ _ _ => false
  | AskAnswered _ => true
  end.

(** The results of [upload_document]: the document was already there, it
    was processed, or an exception was caught. *)
Inductive UploadResult :=
| UploadExisting (document_id : string)
| UploadProcessed (document_id : string) (title author : list ascii)
    (page_count chunk_count total_characters : Z)
| UploadFailed.

Definition upload_success (r : UploadResult) : bool :=
  match r with UploadFailed => false | _ => true end.

(** The ['is_new'] key, absent from a failure. *)
Definition upload_is_new (r : UploadResult) : option bool :=
  match r with
  | UploadExisting _ => Some false
  | UploadProcessed _ _ _ _ _ _ => Some true
  | UploadFailed => None
  end.

(** The results of [select_document]. *)
Inductive SelectResult :=
| SelectNotFound
| Selected (document_id : string) (title : list ascii).

Definition apology : list ascii :=
  list_ascii_of_string
    "I apologize, but I'm unable to generate an answer at this time. Please try rephrasing your question or check your connection.".

Section QASystem.
Context {Index : Type} `{VectorIndex Index}.
Variable env : Environment.

Record DocumentStore := mkDocumentStore {
  storage_path : string;
  documents : dict DocInfo;
  search_engines : dict (@SemanticSearchEngine Index)
}.

(** [DocumentStore.__init__] *)
Definition DocumentStore_init (storage_path : string) : DocumentStore :=
  {| storage_path := storage_path; documents := []; search_engines := [] |}.

(** [DocumentStore.add_document]: how the call ended and the store it
    leaves behind. *)
Definition add_document (self : DocumentStore) (doc_id : string)
  (chunks : list Chunk) (metadata : option Metadata)
  : completion * DocumentStore :=
  if negb (model_loads env) then (Raises, self)
  else
    match build_index SemanticSearchEngine_init chunks with
    | None => (Raises, self)
    | Some search_engine =>
        let self' :=
          {| storage_path := storage_path self;
             documents :=
               dict_set (documents self) doc_id
                 {| d_chunks := chunks;
                    d_metadata := default empty_metadata metadata;
                    d_created_at := now env |};
             search_engines :=
               dict_set (search_engines self) doc_id search_engine |} in
        if index_saved env (storage_path self) doc_id
        then (Returns, self') else (Raises, self')
    end.

(** [DocumentStore.search_document] with the default threshold 0.3 of
    [search]. *)
Definition search_document (self : DocumentStore) (doc_id : string)
  (query : list ascii) (k : Z) : list Chunk :=
  match dict_get (search_engines self) doc_id with
  | None => []
  | Some search_engine => search search_engine query k (3 # 10)
  end.

(** [DocumentStore.get_document_list] *)
Definition get_document_list (self : DocumentStore) : list DocListing :=
  List.map
    (fun '(doc_id, doc_info) =>
       {| l_id := doc_id;
          l_metadata := d_metadata doc_info;
          l_chunk_count := Py.len (d_chunks doc_info);
          l_created_at := d_created_at doc_info |})
    (documents self).

Record LLMAnswerGenerator := mkGenerator { use_watson : bool }.

(** The ['text_preview'] of a source:
    [text[:100] + '...' if len(text) > 100 else text]. *)
Definition text_preview (text : list ascii) : list ascii :=
  if 100 <? Py.len text
  then Py.prefix text 100 ++ list_ascii_of_string "..."
  else text.

(** [LLMAnswerGenerator.generate_answer] *)
Definition generate_answer (self : LLMAnswerGenerator) (question : list ascii)
  (context_chunks : list Chunk) (document_title : list ascii) : AnswerResult :=
  let answer :=
    match llm_answer env (use_watson self) question
            (Py.prefix context_chunks 5) document_title with
    | None => apology
    | Some [] => apology
    | Some answer => answer
    end in
  {| a_answer := answer;
     a_question := question;
     a_document_title := document_title;
     a_context_chunks_used := Py.len context_chunks;
     a_model_used :=
       if use_watson self then "IBM Watson Mixtral-8x7B"%string
       else "Fallback Model"%string;
     a_timestamp := now env;
     a_sources :=
       List.map
         (fun chunk =>
            {| s_chunk_id := c_id chunk;
               s_similarity_score := default 0%Q (c_similarity_score chunk);
               s_text_preview := text_preview (c_text chunk) |})
         (Py.prefix context_chunks 3) |}.

Record StudyMateQASystem := mkQASystem {
  pdf_processor : PDFProcessor;
  document_store : DocumentStore;
  answer_generator : LLMAnswerGenerator;
  current_document : option string;
  conversation_history : list ConversationEntry
}.

(** [StudyMateQASystem.__init__] *)
Definition StudyMateQASystem_init (data_path : string) (use_watson : bool)
  : StudyMateQASystem :=
  {| pdf_processor := PDFProcessor_init;
     document_store := DocumentStore_init data_path;
     answer_generator := {| use_watson := use_watson |};
     current_document := None;
     conversation_history := [] |}.

Definition with_session (self : StudyMateQASystem) (store : DocumentStore)
  (current : option string) (history : list ConversationEntry)
  : StudyMateQASystem :=
  {| pdf_processor := pdf_processor self;
     document_store := store;
     answer_generator := answer_generator self;
     current_document := current;
     conversation_history := history |}.

(** [next((doc for doc in doc_list if doc['id'] == document_id), _)] *)
Definition find_listing (doc_list : list DocListing) (document_id : string)
  : option DocListing :=
  List.find (fun doc => String.eqb (l_id doc) document_id) doc_list.

(** [StudyMateQASystem.upload_document]; [None] when [chunk_text] runs
    out of fuel. *)
Definition upload_document (self : StudyMateQASystem) (pdf_path : string)
  (document_title : option (list ascii))
  : option (UploadResult * StudyMateQASystem) :=
  let doc_id := document_id_of env pdf_path in
  let existing_docs := get_document_list (document_store self) in
  if existsb (fun doc => String.eqb (l_id doc) doc_id) existing_docs then
    Some (UploadExisting doc_id,
          with_session self (document_store self) (Some doc_id)
            (conversation_history self))
  else
    let metadata := metadata_of env pdf_path in
    let metadata :=
      match document_title with
      | Some (c :: t) =>
          mkMetadata (Some (c :: t)) (m_author metadata) (m_subject metadata)
            (m_creator metadata) (m_producer metadata)
            (m_creation_date metadata) (m_modification_date metadata)
            (m_page_count metadata)
      | _ => metadata
      end in
    match text_of env pdf_path with
    | None => Some (UploadFailed, self)
    | Some raw_text =>
        let full_text := preprocess_text raw_text in
        match chunk_text (pdf_processor self) full_text with
        | None => None
        | Some chunks =>
            match add_document (document_store self) doc_id chunks
                    (Some metadata) with
            | (Raises, store') =>
                Some (UploadFailed,
                      with_session self store' (current_document self)
                        (conversation_history self))
            | (Returns, store') =>
                Some (UploadProcessed doc_id
                        (default (list_ascii_of_string "Unknown") (m_title metadata))
                        (default (list_ascii_of_string "Unknown") (m_author metadata))
                        (default 0 (m_page_count metadata))
                        (Py.len chunks) (Py.len full_text),
                      with_session self store' (Some doc_id) [])
            end
        end
    end.

(** [StudyMateQASystem.ask_question] *)
Definition ask_question (self : StudyMateQASystem) (question : list ascii)
  (document_id : option string) (max_context_chunks : Z)
  : AskResult * StudyMateQASystem :=
  let document_id :=
    match document_id with
    | None => current_document self
    | Some d => Some d
    end in
  match document_id with
  | None => (AskNoDocument msg_no_document question, self)
  | Some document_id =>
      let context_chunks :=
        search_document (document_store self) document_id question
          max_context_chunks in
      match context_chunks with
      | [] => (AskNoContext msg_no_context question document_id, self)
      | _ :: _ =>
          let doc_list := get_document_list (document_store self) in
          let doc_title :=
            match find_listing doc_list document_id with
            | None => list_ascii_of_string "Document"
            | Some doc =>
                default (list_ascii_of_string "Document")
                  (m_title (l_metadata doc))
            end in
          let answer_result :=
            generate_answer (answer_generator self) question context_chunks
              doc_title in
          let follow_ups :=
            llm_follow_ups env (use_watson (answer_generator self)) question
              (a_answer answer_result) context_chunks in
          let result :=
            {| q_question := question;
               q_answer := a_answer answer_result;
               q_document_id := document_id;
               q_document_title := doc_title;
               q_sources := a_sources answer_result;
               q_context_chunks_used := Py.len context_chunks;
               q_follow_up_questions := follow_ups;
               q_model_used := a_model_used answer_result;
               q_timestamp := now env |} in
          (AskAnswered result,
           with_session self (document_store self) (current_document self)
             (conversation_history self ++
                [ {| h_question := question;
                     h_answer := q_answer result;
                     h_timestamp := q_timestamp result;
                     h_document_id := document_id |} ]))
      end
  end.

(** [StudyMateQASystem.clear_conversation_history] *)
Definition clear_conversation_history (self : StudyMateQASystem)
  : StudyMateQASystem :=
  with_session self (document_store self) (current_document self) [].

(** [StudyMateQASystem.select_document] *)
Definition select_document (self : StudyMateQASystem) (document_id : string)
  : SelectResult * StudyMateQASystem :=
  let doc_list := get_document_list (document_store self) in
  match find_listing doc_list document_id with
  | None => (SelectNotFound, self)
  | Some doc_info =>
      let self :=
        with_session self (document_store self) (Some document_id)
          (conversation_history self) in
      let self := clear_conversation_history self in
      (Selected document_id
         (default (list_ascii_of_string "Unknown") (m_title (l_metadata doc_info))),
       self)
  end.

End QASystem.

(** ** Further functions of the sources *)

(** More of [str]. *)
Module PyStr.

(** [s.startswith(p)] *)
Fixpoint startswith (s p : list ascii) : bool :=
  match p, s with
  | [], _ => true
  | c :: p', x :: s' => Ascii.eqb x c && startswith s' p'
  | _ :: _, [] => false
  end.

(** [c in s] for one character. *)
Definition contains (s : list ascii) (c : ascii) : bool :=
  existsb (Ascii.eqb c) s.

(** [s.split(sep, 1)] for a one-character separator. *)
Fixpoint split_once (sep : ascii) (s : list ascii) : list (list ascii) :=
  match s with
  | [] => [[]]
  | c :: s' =>
      if Ascii.eqb c sep then [[]; s']
      else match split_once sep s' with
           | h :: t => (c :: h) :: t
           | [] => [[c]]
           end
  end.

Fixpoint lstrip_chars (chars s : list ascii) : list ascii :=
  match s with
  | [] => []
  | c :: s' => if contains chars c then lstrip_chars chars s' else s
  end.

(** [s.strip(chars)] *)
Definition strip_chars (chars s : list ascii) : list ascii :=
  rev (lstrip_chars chars (rev (lstrip_chars chars s))).

End PyStr.


(** The questions returned when the model gives no response. *)
Definition fallback_questions : list (list ascii) :=
  [list_ascii_of_string "Can you explain this concept in more detail?";
   list_ascii_of_string "What are some related topics I should study?";
   list_ascii_of_string "Can you provide an example to illustrate this?"].

(** [line.startswith(('1.', '2.', '3.')) or line.startswith('-')] *)
Definition list_marked (line : list ascii) : bool :=
  PyStr.startswith line (list_ascii_of_string "1.")
  || PyStr.startswith line (list_ascii_of_string "2.")
  || PyStr.startswith line (list_ascii_of_string "3.")
  || PyStr.startswith line (list_ascii_of_string "-").

(** The body of the [for line in lines] loop of
    [generate_follow_up_questions]. *)
Definition follow_up_step (questions : list (list ascii)) (line : list ascii)
  : list (list ascii) :=
  let line := Py.strip line in
  if match line with [] => false | _ :: _ => true end && list_marked line
  then
    let question :=
      if PyStr.contains line "."%char
      then Py.strip (List.last (PyStr.split_once "."%char line) [])
      else PyStr.strip_chars (list_ascii_of_string "- ") line in
    if match question with [] => false | _ :: _ => true end
       && (10 <? Py.len question)
    then questions ++ [question]
    else questions
  else questions.

(** [LLMAnswerGenerator.generate_follow_up_questions], from the response of
    the model to its prompt ([None] when the call gave nothing). *)
Definition generate_follow_up_questions (response : option (list ascii))
  : list (list ascii) :=
  match response with
  | None => fallback_questions
  | Some [] => fallback_questions
  | Some response =>
      let lines := Py.split "010"%char response in
      let questions := fold_left follow_up_step lines [] in
      Py.prefix questions 3
  end.

Definition unable_to_summarize : list ascii :=
  list_ascii_of_string "Unable to generate summary at this time.".

(** [LLMAnswerGenerator.summarize_document_section]; [llm_summary] is the
    model call on the prompt made from the title and the first 2000
    characters of the joined chunk texts. *)
Definition summarize_document_section
  (llm_summary : list ascii -> list ascii -> option (list ascii))
  (chunks : list Chunk) (section_title : list ascii) : list ascii :=
  let text := Py.join [" "%char] (List.map c_text chunks) in
  match llm_summary section_title (Py.prefix text 2000) with
  | None => unable_to_summarize
  | Some [] => unable_to_summarize
  | Some summary => summary
  end.

(** The result of [search_documents]. *)
Record SearchOutcome := mkSearchOutcome {
  so_query : list ascii;
  so_results : dict (list Chunk);
  so_total_documents_searched : Z;
  so_total_matches : Z
}.

(** The results of [get_document_summary]; [SummaryFailed] is the [except]
    branch. *)
Inductive SummaryResult :=
| SummaryNoDocument
| SummaryNotFound
| Summarized (document_id : string) (title summary : list ascii)
    (metadata : Metadata) (chunks_used total_chunks : Z)
| SummaryFailed.

(** The dictionary of [get_system_stats]. *)
Record SystemStats := mkSystemStats {
  st_total_documents : Z;
  st_current_document : option string;
  st_conversation_history_length : Z;
  st_total_chunks : Z;
  st_using_watson : bool
}.

(** [sum(xs)] *)
Definition sum_Z (xs : list Z) : Z := fold_right Z.add 0 xs.

Section MoreOperations.
Context {Index : Type} `{VectorIndex Index}.

(** [DocumentStore.search_all_documents] *)
Definition search_all_documents (self : @DocumentStore Index)
  (query : list ascii) (k : Z) : dict (list Chunk) :=
  fold_left
    (fun (results : dict (list Chunk)) '(doc_id, search_engine) =>
       let doc_results := search search_engine query k (3 # 10) in
       match doc_results with
       | [] => results
       | _ :: _ => dict_set results doc_id doc_results
       end)
    (search_engines self) [].

(** [StudyMateQASystem.search_documents] *)
Definition search_documents (self : @StudyMateQASystem Index)
  (query : list ascii) (document_id : option string) : SearchOutcome :=
  let search_results :=
    match document_id with
    | Some (String c d) =>
        let document_id := String c d in
        let results :=
          search_document (document_store self) document_id query 5 in
        match results with
        | [] => []
        | _ :: _ => [(document_id, results)]
        end
    | _ => search_all_documents (document_store self) query 5
    end in
  {| so_query := query;
     so_results := search_results;
     so_total_documents_searched := Py.len search_results;
     so_total_matches :=
       sum_Z (List.map (fun '(_, found) => Py.len found) search_results) |}.

(** [StudyMateQASystem.get_conversation_history] *)
Definition get_conversation_history (self : @StudyMateQASystem Index)
  (limit : Z) : list ConversationEntry :=
  match conversation_history self with
  | [] => []
  | _ :: _ =>
      Py.slice (conversation_history self) (- limit)
        (Py.len (conversation_history self))
  end.

(** [StudyMateQASystem.get_available_documents] *)
Definition get_available_documents (self : @StudyMateQASystem Index)
  : list DocListing :=
  get_document_list (document_store self).

(** [StudyMateQASystem.get_document_summary] *)
Definition get_document_summary
  (llm_summary : bool -> list ascii -> list ascii -> option (list ascii))
  (self : @StudyMateQASystem Index) (document_id : option string)
  (max_chunks : Z) : SummaryResult :=
  let document_id :=
    match document_id with
    | None => current_document self
    | Some d => Some d
    end in
  match document_id with
  | None => SummaryNoDocument
  | Some document_id =>
      let doc_list := get_document_list (document_store self) in
      match find_listing doc_list document_id with
      | None => SummaryNotFound
      | Some doc_info =>
          match dict_get (documents (document_store self)) document_id with
          | None => SummaryFailed
          | Some info =>
              let chunks := Py.prefix (d_chunks info) max_chunks in
              let doc_title :=
                default (list_ascii_of_string "Document")
                  (m_title (l_metadata doc_info)) in
              let summary :=
                summarize_document_section
                  (llm_summary (use_watson (answer_generator self)))
                  chunks doc_title in
              Summarized document_id doc_title summary (l_metadata doc_info)
                (Py.len chunks) (l_chunk_count doc_info)
          end
      end
  end.

(** [StudyMateQASystem.get_system_stats] *)
Definition get_system_stats (self : @StudyMateQASystem Index) : SystemStats :=
  let doc_list := get_available_documents self in
  {| st_total_documents := Py.len doc_list;
     st_current_document := current_document self;
     st_conversation_history_length := Py.len (conversation_history self);
     st_total_chunks := sum_Z (List.map l_chunk_count doc_list);
     st_using_watson := use_watson (answer_generator self) |}.

End MoreOperations.

(** ** Predicates used to state the properties *)

(** The window of a chunk lies in the text, is not empty and is at most
    [chunk_size] characters wide; its text is the trimmed window, is not
    empty, and ['length'] is the length of that text. *)
Definition chunk_well_formed (self : PDFProcessor) (text : list ascii)
  (c : Chunk) : Prop :=
  0 <= c_start_pos c < c_end_pos c
  /\ c_end_pos c <= Py.len text
  /\ c_end_pos c - c_start_pos c <= chunk_size self
  /\ c_text c = Py.strip (Py.slice text (c_start_pos c) (c_end_pos c))
  /\ c_text c <> []
  /\ c_length c = Py.len (c_text c).

(** The window of [a] ends before the window of [b] starts. *)
Definition window_before (a b : Chunk) : Prop := c_end_pos a <= c_start_pos b.

(** The character at position [i] of [text] is a sentence terminator. *)
Definition terminator_at (text : list ascii) (i : Z) : Prop :=
  exists c, text !! Z.to_nat i = Some c /\ is_terminator c = true.

(** The keys of both dictionaries of a store agree and are distinct. *)
Definition store_consistent {Index : Type} (self : @DocumentStore Index) : Prop :=
  List.map fst (documents self) = List.map fst (search_engines self)
  /\ NoDup (List.map fst (documents self)).

(** The ids that [get_document_list] shows. *)
Definition listed_ids {Index : Type} (self : @DocumentStore Index) : list string :=
  List.map l_id (get_document_list self).

(** The store of a session is consistent, its current document is listed,
    and so is the document of every entry of its history. *)
Definition session_ok {Index : Type} (self : @StudyMateQASystem Index) : Prop :=
  store_consistent (document_store self)
  /\ (forall d, current_document self = Some d ->
                In d (listed_ids (document_store self)))
  /\ Forall (fun e => In (h_document_id e) (listed_ids (document_store self)))
        (conversation_history self).

(** ** Concrete collaborators, used to run the definitions *)

(** A scripted index: its state is the number of vectors added; it accepts
    texts when [accepts] holds and answers every query with [reply]. *)
Definition scripted_index (accepts : bool) (reply : option Hits) : VectorIndex Z :=
  {| index_new := 0;
     index_ntotal := fun n => n;
     index_add := fun n texts => if accepts then Some (n + Py.len texts) else None;
     index_search := fun _ _ _ => reply |}.

(** An environment in which the model loads, every PDF holds [content],
    saving succeeds when [saved] holds and the language model gives one
    fixed answer. *)
Definition scripted_env (saved : bool) (content : list ascii) : Environment :=
  {| model_loads := true;
     index_saved := fun _ _ => saved;
     now := list_ascii_of_string "2024-01-01T00:00:00";
     document_id_of := fun path => (path ++ "_0123abcd")%string;
     metadata_of := fun _ => empty_metadata;
     text_of := fun _ => Some content;
     llm_answer := fun _ _ _ _ => Some (list_ascii_of_string "Forty-two.");
     llm_follow_ups := fun _ _ _ _ => [] |}.

(** A chunk as [chunk_text] makes it, with the given id and text. *)
Definition plain_chunk (i : Z) (text : list ascii) : Chunk :=
  {| c_id := i; c_text := text; c_start_pos := 0; c_end_pos := Py.len text;
     c_length := Py.len text; c_similarity_score := None; c_rank := None;
     c_is_context := None |}.

(** The score of a returned chunk. *)
Definition score_of (c : Chunk) : Q := default 0%Q (c_similarity_score c).

(** Descending score. *)
Definition by_score (c1 c2 : Chunk) : Prop := (score_of c2 <= score_of c1)%Q.

(** Descending score, and ascending chunk id among equal scores. *)
Definition by_score_then_id (c1 c2 : Chunk) : Prop :=
  (score_of c2 < score_of c1)%Q
  \/ ((score_of c2 == score_of c1)%Q /\ c_id c1 <= c_id c2).

(** The test of the loop of [search] on one hit. *)
Definition hit_kept (score_threshold : Q) (hit : Q * Z) : bool :=
  negb (hit.2 =? -1) && Qle_bool score_threshold hit.1.

(** A returned chunk is the copy of the stored chunk that the hit names,
    key for key, carrying the score of the hit. *)
Definition copy_of_hit (chunks : list Chunk) (hit : Q * Z) (c : Chunk) : Prop :=
  c_similarity_score c = Some hit.1
  /\ exists stored, Py.index chunks hit.2 = Some stored
       /\ c_id c = c_id stored /\ c_text c = c_text stored
       /\ c_start_pos c = c_start_pos stored
       /\ c_end_pos c = c_end_pos stored
       /\ c_length c = c_length stored
       /\ c_is_context c = c_is_context stored.

(** Two chunks with ids 0 and 1 and the same text. *)
Definition twin_chunks : list Chunk :=
  [plain_chunk 0 (list_ascii_of_string "same text");
   plain_chunk 1 (list_ascii_of_string "same text")].

(** The same two chunks carrying the ids 1 and 0. *)
Definition swapped_chunks : list Chunk :=
  [plain_chunk 1 (list_ascii_of_string "same text");
   plain_chunk 0 (list_ascii_of_string "same text")].

(** Five chunks with ids 0 to 4. *)
Definition five_chunks : list Chunk :=
  List.map (fun i => plain_chunk i (list_ascii_of_string "text")) (seqZ 0 5).

(** A session: one hit above the threshold for every query, saving works,
    every PDF holds one sentence. *)
Definition demo_index : VectorIndex Z :=
  scripted_index true (Some [(9 # 10, 0); (0%Q, -1)]).

(** The same, with every hit below the threshold. *)
Definition faint_index : VectorIndex Z :=
  scripted_index true (Some [(2 # 10, 0); (0%Q, -1)]).

Definition demo_env : Environment :=
  scripted_env true
    (list_ascii_of_string "Chunking splits a text into windows of characters.").

Definition demo_question : list ascii := list_ascii_of_string "What is chunking?".

Definition after_upload {Index : Type} `{VectorIndex Index}
  (self : @StudyMateQASystem Index) (pdf_path : string)
  : @StudyMateQASystem Index :=
  match upload_document demo_env self pdf_path None with
  | Some (_, self') => self'
  | None => self
  end.

(** The session after uploading [a.pdf], uploading [b.pdf] and asking one
    question about [b.pdf]. *)
Definition demo_session : @StudyMateQASystem Z :=
  let s := StudyMateQASystem_init "/workspace/data" false in
  let s := after_upload (H := demo_index) s "a.pdf" in
  let s := after_upload (H := demo_index) s "b.pdf" in
  (ask_question (H := demo_index) demo_env s demo_question None 5).2.

(** The rank of a returned chunk. *)
Definition rank_of (c : Chunk) : Z := default 0 (c_rank c).

(** A chunk returned by [search] at rank [r] is the copy of the stored
    chunk named by the [r]-th hit, which passed the filter. *)
Definition result_of_hit (chunks : list Chunk) (score_threshold : Q)
  (hits : Hits) (c : Chunk) : Prop :=
  c_rank c = Some (rank_of c)
  /\ 1 <= rank_of c <= Py.len hits
  /\ exists hit,
       hits !! Z.to_nat (rank_of c - 1) = Some hit
       /\ hit_kept score_threshold hit = true
       /\ copy_of_hit chunks hit c.

(** ** Properties of the Python primitives *)

Lemma len_nonneg {A} (l : list A) : 0 <= Py.len l.
Proof. unfold Py.len. lia. Qed.

Lemma lstrip_idem l : Py.lstrip (Py.lstrip l) = Py.lstrip l.
Proof.
  induction l as [|c l IH]; simpl; [reflexivity|].
  destruct (Py.is_space c) eqn:E; [exact IH|].
  simpl. now rewrite E.
Qed.

Lemma lstrip_app_solid l x t :
  Py.is_space x = false -> Py.lstrip (l ++ x :: t) = Py.lstrip l ++ x :: t.
Proof.
  intros Hx. induction l as [|c l IH]; simpl.
  - now rewrite Hx.
  - destruct (Py.is_space c); [exact IH|reflexivity].
Qed.

Lemma lstrip_head l :
  Py.lstrip l = [] \/ exists x t, Py.lstrip l = x :: t /\ Py.is_space x = false.
Proof.
  induction l as [|c l IH]; simpl; [now left|].
  destruct (Py.is_space c) eqn:E; [exact IH|].
  right. now exists c, l.
Qed.

Lemma rstrip_idem l : Py.rstrip (Py.rstrip l) = Py.rstrip l.
Proof.
  unfold Py.rstrip. now rewrite rev_involutive, lstrip_idem.
Qed.

Lemma rstrip_solid_head x t :
  Py.is_space x = false -> Py.rstrip (x :: t) = x :: Py.rstrip t.
Proof.
  intros Hx. unfold Py.rstrip. simpl rev.
  rewrite (lstrip_app_solid (rev t) x [] Hx), rev_app_distr.
  reflexivity.
Qed.

Lemma strip_idem l : Py.strip (Py.strip l) = Py.strip l.
Proof.
  unfold Py.strip.
  destruct (lstrip_head l) as [E | (x & t & E & Hx)]; rewrite E.
  - reflexivity.
  - rewrite (rstrip_solid_head x t Hx). simpl Py.lstrip. rewrite Hx.
    now rewrite (rstrip_solid_head x _ Hx), rstrip_idem.
Qed.

Lemma split_absent sep l :
  Forall (fun c => Ascii.eqb c sep = false) l -> Py.split sep l = [l].
Proof.
  induction 1 as [|c l Hc _ IH]; simpl; [reflexivity|].
  now rewrite Hc, IH.
Qed.

Lemma sub_space_runs_spaces b l :
  Forall (fun c => Py.is_space c = true -> c = " "%char) (Py.sub_space_runs b l).
Proof.
  revert b. induction l as [|c l IH]; intros b; simpl; [constructor|].
  destruct (Py.is_space c) eqn:E.
  - destruct b; [apply IH|]. constructor; [reflexivity|apply IH].
  - constructor; [congruence|apply IH].
Qed.

Lemma collapse_and_clean_no_newline text :
  Forall (fun c => Ascii.eqb c "010"%char = false) (collapse_and_clean text).
Proof.
  unfold collapse_and_clean.
  pose proof (sub_space_runs_spaces false text) as Hs.
  induction Hs as [|c l Hc _ IH]; simpl; [constructor|].
  destruct (kept_char c); [|exact IH].
  constructor; [|exact IH].
  destruct (Ascii.eqb_spec c "010"%char) as [->|]; [|reflexivity].
  specialize (Hc eq_refl). discriminate.
Qed.

Lemma rfind_scan_absent c l i best :
  Forall (fun x => Ascii.eqb x c = false) l -> Py.rfind_scan c l i best = best.
Proof.
  intros Hl. revert i best.
  induction Hl as [|x l Hx _ IH]; intros i best; simpl; [reflexivity|].
  now rewrite Hx, IH.
Qed.

(** ** Properties of [chunk_text] *)

Lemma chunk_body_start self text st :
  cl_start (chunk_body self text st)
  = Z.max (cl_start st + chunk_size self - overlap self)
          (chunk_end self text (cl_start st)).
Proof.
  unfold chunk_body.
  destruct (Py.strip _); reflexivity.
Qed.

Lemma chunk_loop_enough self text :
  overlap self < chunk_size self ->
  forall fuel st,
    Z.max 0 (Py.len text - cl_start st) < Z.of_nat fuel ->
    exists chunks, chunk_loop fuel self text st = Some chunks.
Proof.
  intros Hlt. induction fuel as [|fuel IH]; intros st Hfuel; [lia|].
  simpl. destruct (Z.ltb_spec (cl_start st) (Py.len text)) as [Hs|Hs].
  - apply IH. rewrite chunk_body_start. lia.
  - eauto.
Qed.

Lemma chunk_loop_more self text fuel :
  forall st chunks (extra : nat),
    chunk_loop fuel self text st = Some chunks ->
    chunk_loop (fuel + extra) self text st = Some chunks.
Proof.
  induction fuel as [|fuel IH]; intros st chunks extra; simpl; [discriminate|].
  destruct (cl_start st <? Py.len text); [apply IH|trivial].
Qed.

Lemma rfind_absent text c a b :
  Forall (fun x => Ascii.eqb x c = false) text -> Py.rfind text c a b = -1.
Proof.
  intros Ht. unfold Py.rfind, Py.slice.
  apply rfind_scan_absent. now apply Forall_take, Forall_drop.
Qed.

Lemma chunk_end_plain text start :
  Forall (fun c => is_terminator c = false) text ->
  0 <= start ->
  chunk_end PDFProcessor_init text start = Z.min (start + 500) (Py.len text).
Proof.
  intros Ht Hs. unfold chunk_end. simpl chunk_size.
  destruct (Z.min (start + 500) (Py.len text) <? Py.len text); [|reflexivity].
  rewrite !rfind_absent.
  - change (500 / 2) with 250.
    replace (start + 250 <? Z.max (Z.max (-1) (-1)) (-1)) with false by lia.
    reflexivity.
  - eapply Forall_impl; [exact Ht|]. unfold is_terminator. simpl.
    intros c Hc. now repeat (apply orb_false_elim in Hc as [? Hc]).
  - eapply Forall_impl; [exact Ht|]. unfold is_terminator. simpl.
    intros c Hc. now repeat (apply orb_false_elim in Hc as [? Hc]).
  - eapply Forall_impl; [exact Ht|]. unfold is_terminator. simpl.
    intros c Hc. now repeat (apply orb_false_elim in Hc as [? Hc]).
Qed.

(** The next window never starts before the end of the current one. *)
Lemma chunk_windows_do_not_overlap self text st :
  chunk_end self text (cl_start st) <= cl_start (chunk_body self text st).
Proof. rewrite chunk_body_start. lia. Qed.

(** The loop invariant on 1200 characters without a terminator: [start] is
    0, 500, 1000 or past the end, and every chunk emitted so far covers one
    of the three windows. *)
Lemma chunk_loop_1200 text :
  Py.len text = 1200 ->
  Forall (fun c => is_terminator c = false) text ->
  forall fuel st chunks,
    (cl_start st = 0 \/ cl_start st = 500 \/ cl_start st = 1000
     \/ 1200 <= cl_start st) ->
    Forall (fun c => (c_start_pos c, c_end_pos c) ∈ windows_1200) (cl_chunks st) ->
    chunk_loop fuel PDFProcessor_init text st = Some chunks ->
    Forall (fun c => (c_start_pos c, c_end_pos c) ∈ windows_1200) chunks.
Proof.
  intros Hlen Ht. induction fuel as [|fuel IH]; intros st chunks Hstart Hinv;
    simpl; [discriminate|].
  rewrite Hlen.
  destruct (Z.ltb_spec (cl_start st) 1200) as [Hlt|Hge].
  2: { now intros [= <-]. }
  apply IH.
  - rewrite chunk_body_start, chunk_end_plain, Hlen by (auto; lia).
    simpl chunk_size. simpl overlap. lia.
  - unfold chunk_body. rewrite chunk_end_plain, Hlen by (auto; lia).
    destruct (Py.strip _); simpl; [exact Hinv|].
    apply Forall_app. split; [exact Hinv|].
    constructor; [|constructor]. simpl. unfold windows_1200.
    destruct Hstart as [-> | [-> | [-> | Hpast]]]; [| | |lia].
    + apply elem_of_cons. now left.
    + apply elem_of_cons. right. apply elem_of_cons. now left.
    + do 2 (apply elem_of_cons; right). apply elem_of_cons. now left.
Qed.

(** On every text of 1200 characters without a sentence terminator,
    [chunk_text] with the settings of [__init__] returns chunks that cover
    the windows 0..500, 500..1000 and 1000..1200 only. *)
Lemma chunk_text_1200_windows text :
  Py.len text = 1200 ->
  Forall (fun c => is_terminator c = false) text ->
  exists chunks,
    chunk_text PDFProcessor_init text = Some chunks
    /\ Forall (fun c => (c_start_pos c, c_end_pos c) ∈ windows_1200) chunks.
Proof.
  intros Hlen Ht.
  destruct (chunk_loop_enough PDFProcessor_init text) with
    (fuel := S (List.length text)) (st := chunk_loop_init) as [chunks Hc].
  - simpl. lia.
  - pose proof (len_nonneg text). unfold Py.len in *. simpl. lia.
  - exists chunks. split; [exact Hc|].
    eapply (chunk_loop_1200 text Hlen Ht); [| |exact Hc].
    + now left.
    + constructor.
Qed.

(** C8. [chunk_text] terminates on every text when [chunk_size > overlap]
    (500 and 50 after [__init__]): each iteration of the loop moves [start]
    forward by at least [chunk_size - overlap], and the loop returns its
    chunks as soon as the fuel exceeds the length of the text. *)
Theorem chunk_text_terminates (self : PDFProcessor) (text : list ascii) :
  overlap self < chunk_size self ->
  (forall st,
      cl_start st + (chunk_size self - overlap self)
      <= cl_start (chunk_body self text st))
  /\ exists chunks,
      chunk_text self text = Some chunks
      /\ forall fuel, (List.length text < fuel)%nat ->
           chunk_loop fuel self text chunk_loop_init = Some chunks.
Proof.
  intros Hlt. split.
  - intros st. rewrite chunk_body_start. lia.
  - destruct (chunk_loop_enough self text Hlt (S (List.length text))
                chunk_loop_init) as [chunks Hc].
    { pose proof (len_nonneg text). unfold Py.len in *. simpl. lia. }
    exists chunks. split; [exact Hc|].
    intros fuel Hfuel.
    replace fuel with (S (List.length text) + (fuel - S (List.length text)))%nat
      by lia.
    now apply chunk_loop_more.
Qed.

Lemma chunk_text_terminates_witness :
  overlap PDFProcessor_init < chunk_size PDFProcessor_init
  /\ exists chunks,
       chunk_text PDFProcessor_init
         (list_ascii_of_string "One sentence. Another one!") = Some chunks.
Proof.
  assert (Hlt : overlap PDFProcessor_init < chunk_size PDFProcessor_init)
    by (simpl; lia).
  split; [exact Hlt|].
  destruct (chunk_text_terminates PDFProcessor_init
              (list_ascii_of_string "One sentence. Another one!") Hlt)
    as [_ (chunks & Hc & _)].
  now exists chunks.
Defined.

(** C1. On 1200 letters without a sentence terminator, with chunk size 500
    and overlap 50, [chunk_text] emits three chunks that start at 0, 500 and
    1000 and have lengths 500, 500 and 200: the windows do not overlap. *)
Theorem chunk_text_1200_no_overlap :
  option_map (List.map (fun c => (c_id c, c_start_pos c, c_end_pos c, c_length c)))
    (chunk_text PDFProcessor_init (repeat "a"%char 1200))
  = Some [(0, 0, 500, 500); (1, 500, 1000, 500); (2, 1000, 1200, 200)].
Proof. vm_compute. reflexivity. Qed.

(** C9, as stated, fails: the collapsed and cleaned text of
    ["hello world "] has 12 characters, yet [preprocess_text] does not
    return it whole. *)
Lemma preprocess_text_not_whole :
  let text := list_ascii_of_string "hello world " in
  10 < Py.len (collapse_and_clean text)
  /\ preprocess_text text <> collapse_and_clean text.
Proof. vm_compute. split; [reflexivity|discriminate]. Qed.

(** C9, amended. The collapsed and cleaned text holds no newline, so the
    short-line filter of [preprocess_text] sees it as one line: the result
    is that text trimmed of surrounding whitespace when the trimmed text is
    longer than 10 characters, and the empty string otherwise. *)
Theorem preprocess_text_single_line (text : list ascii) :
  Py.split "010"%char (collapse_and_clean text) = [collapse_and_clean text]
  /\ preprocess_text text =
       (let line := Py.strip (collapse_and_clean text) in
        if 10 <? Py.len line then line else []).
Proof.
  pose proof (split_absent _ _ (collapse_and_clean_no_newline text)) as Hsplit.
  split; [exact Hsplit|].
  unfold preprocess_text. fold (collapse_and_clean text).
  rewrite Hsplit. simpl fold_left.
  destruct (10 <? Py.len (Py.strip (collapse_and_clean text))); simpl.
  - apply strip_idem.
  - reflexivity.
Qed.

(** ** Properties of [search] *)

Section SearchFacts.
Context {Index : Type} `{VectorIndex Index}.

Lemma search_loop_none_kept chunks thr hits :
  Forall (fun hit => hit_kept thr hit = false) hits ->
  forall i results, search_loop chunks thr i hits results = Some results.
Proof.
  induction 1 as [|[score idx] hits Hh _ IH]; intros i results; simpl;
    [reflexivity|].
  unfold hit_kept in Hh. simpl in Hh. rewrite Hh. apply IH.
Qed.

(** Below a hit that the loop drops, an ordered hit list holds only hits
    that it drops. *)
Lemma faiss_ordered_tail_dropped thr hit hits :
  faiss_ordered (hit :: hits) -> hit_kept thr hit = false ->
  Forall (fun h => hit_kept thr h = false) hits.
Proof.
  intros [Hdesc Hpad] Hdrop.
  apply StronglySorted_inv in Hdesc as [_ Hle].
  apply Forall_forall. intros h Hin.
  pose proof Hin as Hmem. apply list_elem_of_lookup in Hin as [j Hj].
  unfold hit_kept in *.
  apply andb_false_iff in Hdrop as [Hidx|Hthr].
  - assert (h.2 = -1) as ->.
    { apply (Hpad 0%nat (S j) hit h); simpl; auto; [lia|].
      apply negb_false_iff in Hidx. lia. }
    reflexivity.
  - apply andb_false_iff. right.
    destruct (Qle_bool thr h.1) eqn:E; [|reflexivity].
    apply Qle_bool_iff in E.
    assert (Hh : (h.1 <= hit.1)%Q).
    { rewrite Forall_forall in Hle. now apply Hle. }
    assert (Htrue : Qle_bool thr hit.1 = true)
      by (apply Qle_bool_iff; eapply Qle_trans; eauto).
    congruence.
Qed.

Lemma faiss_ordered_tail hit hits :
  faiss_ordered (hit :: hits) -> faiss_ordered hits.
Proof.
  intros [Hdesc Hpad]. split.
  - now apply StronglySorted_inv in Hdesc.
  - intros i j a b Hi Hj Hij. apply (Hpad (S i) (S j) a b); simpl; auto; lia.
Qed.

Lemma search_loop_ranks chunks thr hits :
  faiss_ordered hits ->
  forall i results out,
    search_loop chunks thr i hits results = Some out ->
    exists found,
      out = results ++ found
      /\ List.map c_rank found = List.map Some (seqZ (i + 1) (Py.len found)).
Proof.
  induction hits as [|[score idx] hits IH]; intros Hord i results out; simpl.
  - intros [= <-]. exists []. now rewrite app_nil_r.
  - destruct (negb (idx =? -1) && Qle_bool thr score) eqn:Hkeep.
    + destruct (Py.index chunks idx) as [chunk|]; [|discriminate].
      intros Hloop.
      destruct (IH (faiss_ordered_tail _ _ Hord) _ _ _ Hloop)
        as (found & -> & Hranks).
      eexists (_ :: found). split; [now rewrite <- app_assoc|].
      simpl List.map. rewrite Hranks.
      unfold Py.len. simpl List.length.
      rewrite (seqZ_cons (i + 1)) by lia.
      simpl. do 3 f_equal; lia.
    + rewrite (search_loop_none_kept chunks thr hits
                 (faiss_ordered_tail_dropped thr _ _ Hord Hkeep)).
      intros [= <-]. exists []. now rewrite app_nil_r.
Qed.

Lemma search_loop_results chunks thr hits :
  forall i results out,
    search_loop chunks thr i hits results = Some out ->
    exists found,
      out = results ++ found
      /\ Forall2 (copy_of_hit chunks) (List.filter (hit_kept thr) hits) found.
Proof.
  induction hits as [|[score idx] hits IH]; intros i results out; simpl.
  - intros [= <-]. exists []. rewrite app_nil_r. split; [reflexivity|constructor].
  - unfold hit_kept at 1. simpl.
    destruct (negb (idx =? -1) && Qle_bool thr score) eqn:Hkeep.
    + destruct (Py.index chunks idx) as [chunk|] eqn:Hidx; [|discriminate].
      intros Hloop. destruct (IH _ _ _ Hloop) as (found & -> & Hf).
      eexists (_ :: found). split; [now rewrite <- app_assoc|].
      constructor; [|exact Hf].
      split; [reflexivity|]. exists chunk. simpl.
      repeat split; (assumption || reflexivity).
    + apply IH.
Qed.

Lemma search_loop_index_error chunks thr hits :
  Exists (fun hit => hit_kept thr hit = true /\ Py.index chunks hit.2 = None) hits ->
  forall i results, search_loop chunks thr i hits results = None.
Proof.
  induction hits as [|[score idx] hits IH]; intros Hbad i results.
  - now apply Exists_nil in Hbad.
  - simpl. apply Exists_cons in Hbad.
    destruct (negb (idx =? -1) && Qle_bool thr score) eqn:Hkeep.
    + destruct (Py.index chunks idx) as [chunk|] eqn:Hidx; [|reflexivity].
      destruct Hbad as [[_ Hnone] | Hbad]; [simpl in Hnone; congruence|].
      now apply IH.
    + destruct Hbad as [[Hk _] | Hbad]; [|now apply IH].
      unfold hit_kept in Hk. simpl in Hk. congruence.
Qed.

Lemma search_loop_total chunks thr hits :
  Forall (fun hit => hit_kept thr hit = true -> Py.index chunks hit.2 <> None) hits ->
  forall i results, exists out, search_loop chunks thr i hits results = Some out.
Proof.
  induction 1 as [|[score idx] hits Hgood _ IH]; intros i results; simpl;
    [eauto|].
  destruct (negb (idx =? -1) && Qle_bool thr score) eqn:Hkeep; [|apply IH].
  destruct (Py.index chunks idx) as [chunk|] eqn:Hidx; [apply IH|].
  exfalso. now apply Hgood.
Qed.

Lemma filter_hits_descending thr hits :
  hits_descending hits -> hits_descending (List.filter (hit_kept thr) hits).
Proof.
  unfold hits_descending.
  induction 1 as [|hit hits _ IH Hle]; simpl; [constructor|].
  destruct (hit_kept thr hit); [|exact IH].
  constructor; [exact IH|].
  apply Forall_forall. intros h Hin.
  apply list_elem_of_In, filter_In in Hin as [Hin _].
  rewrite Forall_forall in Hle. now apply Hle, list_elem_of_In.
Qed.

Lemma copies_by_score chunks kept :
  hits_descending kept ->
  forall found, Forall2 (copy_of_hit chunks) kept found ->
  StronglySorted by_score found.
Proof.
  unfold hits_descending.
  induction 1 as [|hit kept _ IH Hle]; intros found Hf.
  - apply Forall2_nil_inv_l in Hf as ->. constructor.
  - apply Forall2_cons_inv_l in Hf as (c & found' & [Hc _] & Hf' & ->).
    constructor; [now apply IH|].
    apply Forall_forall. intros c' Hin.
    apply list_elem_of_lookup in Hin as [j Hj].
    destruct (Forall2_lookup_r _ _ _ _ _ Hf' Hj) as (h & Hh & [Hc' _]).
    unfold by_score, score_of. rewrite Hc, Hc'. simpl.
    rewrite Forall_forall in Hle. apply Hle.
    apply list_elem_of_lookup. eauto.
Qed.

End SearchFacts.

Section SearchClaims.
Context {Index : Type} `{VectorIndex Index}.

(** What [search] returns is empty or the outcome of its loop. *)
Lemma search_cases self query k thr hits :
  index_search (se_index self) query k = Some hits ->
  search self query k thr = []
  \/ search_loop (se_chunks self) thr 0 hits [] = Some (search self query k thr).
Proof.
  intros Hhits. unfold search. rewrite Hhits.
  destruct (index_ntotal (se_index self) =? 0); [now left|].
  destruct (search_loop (se_chunks self) thr 0 hits []); [now right|now left].
Qed.

(** C3. When the index reports its hits best first, with the padding
    labels [-1] last, the ['rank'] keys of the chunks that [search]
    returns are 1, 2, 3, ... in order: the first returned chunk has rank
    1 and the ranks are consecutive. *)
Theorem search_ranks_consecutive (self : SemanticSearchEngine)
  (query : list ascii) (k : Z) (score_threshold : Q) (hits : Hits) :
  index_search (se_index self) query k = Some hits ->
  faiss_ordered hits ->
  let results := search self query k score_threshold in
  List.map c_rank results = List.map Some (seqZ 1 (Py.len results)).
Proof.
  intros Hhits Hord results.
  destruct (search_cases self query k score_threshold hits Hhits) as [E|E];
    fold results in E.
  - rewrite E. reflexivity.
  - destruct (search_loop_ranks _ _ _ Hord _ _ _ E) as (found & Hf & Hranks).
    simpl in Hf. subst found. exact Hranks.
Qed.

(** What [search] returns is empty or the outcome of its loop on the hits
    of the index. *)
Lemma search_outcome self query k thr :
  search self query k thr = []
  \/ exists hits,
       index_search (se_index self) query k = Some hits
       /\ search_loop (se_chunks self) thr 0 hits [] = Some (search self query k thr).
Proof.
  destruct (index_search (se_index self) query k) as [hits|] eqn:Hhits.
  - destruct (search_cases self query k thr hits Hhits) as [E|E];
      [now left|right; eauto].
  - left. unfold search. rewrite Hhits.
    now destruct (index_ntotal (se_index self) =? 0).
Qed.

Lemma copies_above_threshold chunks thr hits results :
  Forall2 (copy_of_hit chunks) (List.filter (hit_kept thr) hits) results ->
  Forall (fun c => exists s, c_similarity_score c = Some s /\ (thr <= s)%Q) results.
Proof.
  intros Hcopies. apply Forall_forall. intros c Hin.
  apply list_elem_of_lookup in Hin as [j Hj].
  destruct (Forall2_lookup_r _ _ _ _ _ Hcopies Hj) as (h & Hh & [Hc _]).
  exists h.1. split; [exact Hc|].
  assert (Hin : In h (List.filter (hit_kept thr) hits)).
  { apply list_elem_of_In, list_elem_of_lookup. eauto. }
  apply filter_In in Hin as [_ Hkept].
  unfold hit_kept in Hkept. apply andb_true_iff in Hkept as [_ Hq].
  now apply Qle_bool_iff.
Qed.

(** C2, amended. On every call [search] returns only chunks whose score
    is at least [score_threshold].  It returns the empty list when the
    call of the index raises, when the index is empty, and when a hit that
    passes the filter carries a label that does not index the stored
    chunks; in every other case the result is exactly the list of the
    copies of the hits that pass the filter, in the order in which the
    index reported them.  So, when the index reports its hits by
    descending score, the returned sequence is sorted by descending score;
    equal scores stay in the order of the index. *)
Theorem search_threshold_and_order (self : SemanticSearchEngine)
  (query : list ascii) (k : Z) (score_threshold : Q) :
  let results := search self query k score_threshold in
  Forall (fun c => exists s, c_similarity_score c = Some s
                             /\ (score_threshold <= s)%Q) results
  /\ (index_search (se_index self) query k = None -> results = [])
  /\ forall hits,
       index_search (se_index self) query k = Some hits ->
       (index_ntotal (se_index self) = 0
        \/ Exists (fun hit => hit_kept score_threshold hit = true
                              /\ Py.index (se_chunks self) hit.2 = None) hits ->
        results = [])
       /\ (index_ntotal (se_index self) <> 0 ->
           Forall (fun hit => hit_kept score_threshold hit = true ->
                              Py.index (se_chunks self) hit.2 <> None) hits ->
           Forall2 (copy_of_hit (se_chunks self))
             (List.filter (hit_kept score_threshold) hits) results)
       /\ (hits_descending hits -> StronglySorted by_score results).
Proof.
  intros results. split; [|split].
  - destruct (search_outcome self query k score_threshold)
      as [E | (hits & _ & E)]; fold results in E.
    + rewrite E. constructor.
    + destruct (search_loop_results _ _ _ _ _ _ E) as (found & Hf & Hcopies).
      simpl in Hf. subst found.
      exact (copies_above_threshold _ _ _ _ Hcopies).
  - intros Hnone. unfold results, search. rewrite Hnone.
    now destruct (index_ntotal (se_index self) =? 0).
  - intros hits Hhits. split; [|split].
    + intros [Hempty | Hbad]; unfold results, search; rewrite Hhits.
      * now rewrite Hempty.
      * destruct (index_ntotal (se_index self) =? 0); [reflexivity|].
        now rewrite (search_loop_index_error _ _ _ Hbad).
    + intros Hfull Hgood.
      destruct (search_loop_total (se_chunks self) score_threshold hits Hgood 0 [])
        as [out Hout].
      assert (E : results = out).
      { unfold results, search. rewrite Hhits, Hout.
        destruct (Z.eqb_spec (index_ntotal (se_index self)) 0);
          [contradiction|reflexivity]. }
      rewrite E.
      destruct (search_loop_results _ _ _ _ _ _ Hout) as (found & Hf & Hcopies).
      simpl in Hf. now subst found.
    + intros Hdesc.
      destruct (search_cases self query k score_threshold hits Hhits) as [E|E];
        fold results in E.
      * rewrite E. constructor.
      * destruct (search_loop_results _ _ _ _ _ _ E) as (found & Hf & Hcopies).
        simpl in Hf. subst found.
        eapply copies_by_score; [|exact Hcopies].
        now apply filter_hits_descending.
Qed.

End SearchClaims.

Lemma not_sorted_pair {A} (R : A -> A -> Prop) (a b : A) (l : list A) :
  ~ R a b -> ~ Sorted R (a :: b :: l).
Proof.
  intros Hn Hs. apply Sorted_inv in Hs as [_ Hhd].
  apply HdRel_inv in Hhd. contradiction.
Qed.

(** C2, as stated, fails on a tie.  Two stored chunks score 9/10 for the
    query.  Whether the index reports label 1 before label 0 over chunks
    with ids 0 and 1, or label 0 before label 1 over chunks with ids 1 and
    0, the hits are in descending score order and [search] returns the
    chunk with id 1 before the chunk with id 0. *)
Lemma search_tie_not_by_id :
  let hits10 : Hits := [(9 # 10, 1); (9 # 10, 0)] in
  let hits01 : Hits := [(9 # 10, 0); (9 # 10, 1)] in
  (hits_descending hits10
   /\ ~ Sorted by_score_then_id
        (search (H := scripted_index true (Some hits10))
           {| se_index := 2; se_chunks := twin_chunks |}
           (list_ascii_of_string "x") 5 (3 # 10)))
  /\ (hits_descending hits01
      /\ ~ Sorted by_score_then_id
           (search (H := scripted_index true (Some hits01))
              {| se_index := 2; se_chunks := swapped_chunks |}
              (list_ascii_of_string "x") 5 (3 # 10))).
Proof.
  assert (Hq : (9 # 10 <= 9 # 10)%Q) by apply Qle_refl.
  split; (split;
    [ repeat constructor; exact Hq
    | apply not_sorted_pair; unfold by_score_then_id, score_of; simpl;
      intros [Hlt | [_ Hid]];
      [ apply Qlt_irrefl in Hlt; exact Hlt | lia ] ]).
Qed.

Lemma search_threshold_and_order_witness :
  let hits : Hits := [(9 # 10, 1); (9 # 10, 0); (2 # 10, 2); (0%Q, -1)] in
  let results :=
    search (H := scripted_index true (Some hits))
      {| se_index := 5; se_chunks := five_chunks |}
      (list_ascii_of_string "x") 4 (3 # 10) in
  List.map c_id results = [1; 0]
  /\ Forall2 (copy_of_hit five_chunks) [(9 # 10, 1); (9 # 10, 0)] results
  /\ StronglySorted by_score results.
Proof.
  intros hits results.
  destruct (proj2 (proj2
    (search_threshold_and_order (H := scripted_index true (Some hits))
       {| se_index := 5; se_chunks := five_chunks |}
       (list_ascii_of_string "x") 4 (3 # 10))) hits eq_refl)
    as (_ & Hexact & Hsorted).
  split; [reflexivity|]. split.
  - apply Hexact; [discriminate|].
    unfold hits.
    do 4 (constructor; [intros _; vm_compute; discriminate|]).
    constructor.
  - apply Hsorted. unfold hits, hits_descending.
    repeat constructor; unfold Qle; simpl; lia.
Defined.

Lemma search_ranks_consecutive_witness :
  let hits : Hits := [(9 # 10, 1); (1 # 2, 0); (0%Q, -1)] in
  let results :=
    search (H := scripted_index true (Some hits))
      {| se_index := 2; se_chunks := twin_chunks |}
      (list_ascii_of_string "x") 3 (3 # 10) in
  List.map c_id results = [1; 0] /\ List.map c_rank results = [Some 1; Some 2].
Proof.
  intros hits results.
  assert (Hord : faiss_ordered hits).
  { unfold hits. split.
    - unfold hits_descending. repeat constructor; unfold Qle; simpl; lia.
    - intros i j a b Hi Hj Hij Ha.
      destruct i as [|[|[|i]]]; destruct j as [|[|[|j]]]; simpl in *;
        simplify_eq; simpl in *; try lia; reflexivity. }
  split; [reflexivity|].
  exact (search_ranks_consecutive (H := scripted_index true (Some hits))
           {| se_index := 2; se_chunks := twin_chunks |}
           (list_ascii_of_string "x") 3 (3 # 10) hits eq_refl Hord).
Defined.

(** ** Properties of [get_context_window] *)

Lemma elem_of_add_all (l : list Z) (s : gset Z) (j : Z) :
  j ∈ fold_left (fun (s : gset Z) i => s ∪ {[ i ]}) l s <-> j ∈ s \/ j ∈ l.
Proof.
  revert s. induction l as [|x l IH]; intros s; simpl.
  - rewrite elem_of_nil. tauto.
  - rewrite IH, elem_of_union, elem_of_singleton, elem_of_cons. tauto.
Qed.

Lemma elem_of_expanded_ids_acc (n w : Z) (chunk_ids : list Z) (acc : gset Z) (j : Z) :
  j ∈ fold_left
        (fun (expanded_ids : gset Z) chunk_id =>
           fold_left (fun (s : gset Z) i => s ∪ {[ i ]})
             (seqZ (Z.max 0 (chunk_id - w))
                (Z.min n (chunk_id + w + 1) - Z.max 0 (chunk_id - w)))
             (expanded_ids ∪ {[ chunk_id ]}))
        chunk_ids acc
  <-> j ∈ acc
      \/ exists h, h ∈ chunk_ids
           /\ (j = h \/ Z.max 0 (h - w) <= j < Z.min n (h + w + 1)).
Proof.
  revert acc. induction chunk_ids as [|x l IH]; intros acc; simpl.
  - split; [now left|]. intros [Hj | (h & Hh & _)]; [exact Hj|].
    now apply elem_of_nil in Hh.
  - rewrite IH, elem_of_add_all, elem_of_union, elem_of_singleton, elem_of_seqZ.
    split.
    + intros [[[Hacc | ->] | Hr] | (h & Hh & Hj)].
      * now left.
      * right. exists x. split; [apply elem_of_cons; now left|now left].
      * right. exists x. split; [apply elem_of_cons; now left|right; lia].
      * right. exists h. split; [apply elem_of_cons; now right|exact Hj].
    + intros [Hacc | (h & Hh & Hj)]; [now left; left; left|].
      apply elem_of_cons in Hh as [-> | Hh].
      * destruct Hj as [-> | Hj]; [now left; left; right|left; right; lia].
      * right. now exists h.
Qed.

Section ContextWindow.
Context {Index : Type} `{VectorIndex Index}.

Lemma elem_of_expanded_ids (n w : Z) (chunk_ids : list Z) (j : Z) :
  j ∈ expanded_ids n chunk_ids w
  <-> exists h, h ∈ chunk_ids
        /\ (j = h \/ Z.max 0 (h - w) <= j < Z.min n (h + w + 1)).
Proof.
  unfold expanded_ids. rewrite elem_of_expanded_ids_acc.
  split; [intros [Hj | Hj]; [now apply elem_of_empty in Hj|exact Hj]|now right].
Qed.

Lemma elem_of_sorted (s : gset Z) (j : Z) : j ∈ sorted s <-> j ∈ s.
Proof.
  unfold sorted. rewrite merge_sort_Permutation. apply elem_of_elements.
Qed.

Lemma NoDup_sorted (s : gset Z) : NoDup (sorted s).
Proof.
  unfold sorted. rewrite merge_sort_Permutation. apply NoDup_elements.
Qed.

Lemma StronglySorted_le_lt (l : list Z) :
  StronglySorted Z.le l -> NoDup l -> StronglySorted Z.lt l.
Proof.
  induction 1 as [|x l _ IH Hle]; intros Hnd; [constructor|].
  apply NoDup_cons in Hnd as [Hx Hnd].
  constructor; [now apply IH|].
  rewrite Forall_forall in Hle |- *. intros y Hy.
  specialize (Hle y Hy). assert (x <> y) by (intros ->; contradiction). lia.
Qed.

Lemma sorted_ascending (s : gset Z) : StronglySorted Z.lt (sorted s).
Proof.
  apply StronglySorted_le_lt; [|apply NoDup_sorted].
  unfold sorted. apply StronglySorted_merge_sort; apply _.
Qed.

Lemma index_positional (chunks : list Chunk) (i : Z) :
  (forall (p : nat) c, chunks !! p = Some c -> c_id c = Z.of_nat p) ->
  0 <= i < Py.len chunks ->
  exists c, Py.index chunks i = Some c /\ c_id c = i.
Proof.
  intros Hpos Hi. unfold Py.index, Py.len in *.
  replace (i <? - Z.of_nat (List.length chunks)) with false by lia.
  replace (Z.of_nat (List.length chunks) <=? i) with false by lia.
  replace (i <? 0) with false by lia. simpl.
  destruct (lookup_lt_is_Some_2 chunks (Z.to_nat i)) as [c Hc]; [lia|].
  exists c. split; [exact Hc|]. rewrite (Hpos _ _ Hc). lia.
Qed.

Lemma context_copies (chunks : list Chunk) (chunk_ids ids : list Z) :
  (forall (p : nat) c, chunks !! p = Some c -> c_id c = Z.of_nat p) ->
  Forall (fun i => 0 <= i < Py.len chunks) ids ->
  exists out,
    mapM
      (fun chunk_id =>
         match Py.index chunks chunk_id with
         | None => None
         | Some chunk =>
             Some {| c_id := c_id chunk; c_text := c_text chunk;
                     c_start_pos := c_start_pos chunk;
                     c_end_pos := c_end_pos chunk;
                     c_length := c_length chunk;
                     c_similarity_score := c_similarity_score chunk;
                     c_rank := c_rank chunk;
                     c_is_context :=
                       Some (bool_decide (chunk_id ∉ chunk_ids)) |}
         end) ids = Some out
    /\ List.map c_id out = ids
    /\ Forall (fun c => c_is_context c
                        = Some (bool_decide (c_id c ∉ chunk_ids))) out.
Proof.
  intros Hpos. induction 1 as [|i ids Hi _ (out & Hout & Hids & Hctx)].
  - exists []. repeat split; constructor.
  - destruct (index_positional chunks i Hpos Hi) as (c & Hc & Hid).
    eexists (_ :: out). simpl. rewrite Hc. simpl. rewrite Hout. simpl.
    split; [reflexivity|]. split; [now rewrite Hid, Hids|].
    constructor; [simpl; now rewrite Hid|exact Hctx].
Qed.

(** C6, amended. Over an engine whose stored chunks carry their position
    as id, for a non-empty list of hits with ids of stored chunks and a window
    [w >= 0], [get_context_window] returns chunks whose ids are strictly
    ascending and free of duplicates, include every hit id, are exactly
    the valid ids within distance [w] of some hit id, and which carry
    [is_context = True] exactly when their id is not a hit id. *)
Theorem get_context_window_spec (self : @SemanticSearchEngine Index)
  (hits : list Chunk) (w : Z) :
  (forall (p : nat) c, se_chunks self !! p = Some c -> c_id c = Z.of_nat p) ->
  hits <> [] ->
  Forall (fun h => 0 <= c_id h < Py.len (se_chunks self)) hits ->
  0 <= w ->
  exists out,
    get_context_window self hits w = Some out
    /\ StronglySorted Z.lt (List.map c_id out)
    /\ NoDup (List.map c_id out)
    /\ (forall h, h ∈ hits -> c_id h ∈ List.map c_id out)
    /\ (forall j, j ∈ List.map c_id out
                  <-> 0 <= j < Py.len (se_chunks self)
                      /\ exists h, h ∈ hits /\ c_id h - w <= j <= c_id h + w)
    /\ Forall (fun c => c_is_context c
                        = Some (bool_decide (c_id c ∉ List.map c_id hits))) out.
Proof.
  intros Hpos Hne Hhits Hw.
  set (n := Py.len (se_chunks self)) in *.
  set (ids := sorted (expanded_ids n (List.map c_id hits) w)).
  assert (Hmem : forall j, j ∈ ids
            <-> 0 <= j < n /\ exists h, h ∈ hits /\ c_id h - w <= j <= c_id h + w).
  { intros j. unfold ids. rewrite elem_of_sorted, elem_of_expanded_ids.
    rewrite Forall_forall in Hhits. split.
    - intros (i & Hi & Hj).
      apply list_elem_of_In, in_map_iff in Hi as (h & <- & Hh).
      apply list_elem_of_In in Hh. specialize (Hhits h Hh).
      split; [lia|]. exists h. split; [exact Hh|lia].
    - intros (Hj & h & Hh & Hd). exists (c_id h).
      split; [apply list_elem_of_In, in_map, list_elem_of_In, Hh|right; lia]. }
  destruct (context_copies (se_chunks self) (List.map c_id hits) ids Hpos)
    as (out & Hout & Hids & Hctx).
  { apply Forall_forall. intros j Hj. now apply Hmem in Hj as [Hj _]. }
  exists out. split.
  { unfold get_context_window. destruct hits; [contradiction|]. exact Hout. }
  rewrite Hids. split; [apply sorted_ascending|].
  split; [apply NoDup_sorted|].
  split; [|split; [exact Hmem|exact Hctx]].
  intros h Hh. apply Hmem. rewrite Forall_forall in Hhits.
  split; [now apply Hhits|]. exists h. split; [exact Hh|lia].
Qed.

End ContextWindow.

(** C6, as stated, fails outside of these conditions.  Over five chunks
    with ids 0 to 4 a hit with id 7 makes [get_context_window] raise
    [IndexError]; a hit with id -1 and window 1 gives the chunks with ids
    4 and 0, in that order, which are not ascending and do not include the
    hit id; and over two stored chunks that carry the ids 1 and 0, a hit
    with id 0 and window 0 gives the chunk with id 1. *)
Lemma get_context_window_outside_conditions :
  get_context_window (Index := Z) {| se_index := 5; se_chunks := five_chunks |}
    [plain_chunk 7 []] 2 = None
  /\ option_map (List.map c_id)
       (get_context_window (Index := Z)
          {| se_index := 5; se_chunks := five_chunks |} [plain_chunk (-1) []] 1)
     = Some [4; 0]
  /\ option_map (List.map c_id)
       (get_context_window (Index := Z)
          {| se_index := 2; se_chunks := swapped_chunks |} [plain_chunk 0 []] 0)
     = Some [1].
Proof. vm_compute. repeat split. Qed.

Lemma get_context_window_spec_witness :
  exists out,
    get_context_window (Index := Z) {| se_index := 5; se_chunks := five_chunks |}
      [plain_chunk 3 []; plain_chunk 0 []] 1 = Some out
    /\ List.map c_id out = [0; 1; 2; 3; 4]
    /\ List.map c_is_context out
       = [Some false; Some true; Some true; Some false; Some true].
Proof.
  destruct (get_context_window_spec (Index := Z)
              {| se_index := 5; se_chunks := five_chunks |}
              [plain_chunk 3 []; plain_chunk 0 []] 1)
    as (out & Hout & _).
  - intros p c Hp.
    do 5 (destruct p as [|p]; [injection Hp as <-; reflexivity|]).
    discriminate.
  - discriminate.
  - repeat constructor; simpl; lia.
  - lia.
  - exists out. split; [exact Hout|].
    vm_compute in Hout. injection Hout as <-. split; reflexivity.
Defined.

(** ** Properties of the store and of the question-answering session *)

Lemma prefix_take {A} (l : list A) (n : Z) :
  0 <= n -> Py.prefix l n = take (Z.to_nat n) l.
Proof.
  intros Hn. unfold Py.prefix, Py.slice, Py.adjust_index, Py.len.
  replace (0 <? 0) with false by reflexivity.
  replace (n <? 0) with false by lia.
  replace (Z.to_nat (Z.min 0 (Z.of_nat (List.length l)))) with 0%nat by lia.
  rewrite drop_0.
  destruct (Z.le_ge_cases n (Z.of_nat (List.length l))) as [Hle|Hge].
  - f_equal. lia.
  - rewrite !take_ge; [reflexivity| |]; lia.
Qed.

Lemma text_preview_length (text : list ascii) :
  Py.len (text_preview text) <= 103.
Proof.
  unfold text_preview.
  destruct (Z.ltb_spec 100 (Py.len text)) as [Hlong|Hshort]; [|lia].
  rewrite prefix_take by lia. unfold Py.len in *.
  rewrite length_app, length_take.
  change (List.length (list_ascii_of_string "...")) with 3%nat. lia.
Qed.

Section SessionFacts.
Context {Index : Type} `{VectorIndex Index}.
Variable env : Environment.

(** C7, amended. [generate_answer] attaches one source for each of the
    first three context chunks, so at most three; the preview of a source
    is the text of its chunk when that has at most 100 characters and
    otherwise its first 100 characters followed by three dots, so at most
    103 characters. *)
Theorem generate_answer_sources (self : LLMAnswerGenerator)
  (question : list ascii) (context_chunks : list Chunk)
  (document_title : list ascii) :
  let sources :=
    a_sources (generate_answer env self question context_chunks document_title) in
  Py.len sources <= 3
  /\ Forall2
       (fun chunk s =>
          s_chunk_id s = c_id chunk
          /\ s_text_preview s =
               (if 100 <? Py.len (c_text chunk)
                then take 100 (c_text chunk) ++ list_ascii_of_string "..."
                else c_text chunk))
       (take 3 context_chunks) sources
  /\ Forall (fun s => Py.len (s_text_preview s) <= 103) sources.
Proof.
  simpl. rewrite prefix_take by lia. change (Z.to_nat 3) with 3%nat.
  split; [|split].
  - unfold Py.len. rewrite length_map, length_take. lia.
  - induction (take 3 context_chunks) as [|c l IH]; simpl; constructor;
      [|exact IH].
    split; [reflexivity|]. simpl. unfold text_preview.
    destruct (100 <? Py.len (c_text c)); [|reflexivity].
    now rewrite prefix_take by lia.
  - apply Forall_forall. intros s Hs.
    apply list_elem_of_In, in_map_iff in Hs as (c & <- & _). simpl.
    apply text_preview_length.
Qed.

(** C5, amended. When [add_document] fails while the index is built
    (the model does not load, or encoding and adding the chunks raises),
    it raises and leaves the store as it was: a document id that
    [get_document_list] did not show before is not shown afterwards. *)
Theorem add_document_build_failure (self : DocumentStore) (doc_id : string)
  (chunks : list Chunk) (metadata : option Metadata) :
  model_loads env = false
  \/ build_index SemanticSearchEngine_init chunks = None ->
  add_document env self doc_id chunks metadata = (Raises, self)
  /\ (~ In doc_id (List.map l_id (get_document_list self)) ->
      ~ In doc_id
          (List.map l_id
             (get_document_list
                (add_document env self doc_id chunks metadata).2))).
Proof.
  intros Hfail.
  assert (E : add_document env self doc_id chunks metadata = (Raises, self)).
  { unfold add_document. destruct Hfail as [Hm | Hb].
    - now rewrite Hm.
    - rewrite Hb. now destruct (model_loads env). }
  split; [exact E|]. now rewrite E.
Qed.

Lemma search_none_kept (self : SemanticSearchEngine) query k thr hits :
  index_search (se_index self) query k = Some hits ->
  Forall (fun hit => hit_kept thr hit = false) hits ->
  search self query k thr = [].
Proof.
  intros Hhits Hdrop. unfold search. rewrite Hhits.
  destruct (index_ntotal (se_index self) =? 0); [reflexivity|].
  now rewrite (search_loop_none_kept _ _ _ Hdrop).
Qed.

(** C4. [ask_question] returns a failure saying that no document is
    selected when no document id is given and no current document is
    set, and a failure saying that nothing relevant was found when the
    retrieval from the document returns no chunk, as it does when no hit
    of the index reaches the threshold 0.3; in these cases the session,
    and so the conversation history, is left as it was. *)
Theorem ask_question_failures (self : StudyMateQASystem)
  (question : list ascii) (document_id : option string)
  (max_context_chunks : Z) :
  let resolved :=
    match document_id with
    | None => current_document self
    | Some d => Some d
    end in
  let outcome :=
    ask_question env self question document_id max_context_chunks in
  (resolved = None ->
   outcome = (AskNoDocument msg_no_document question, self)
   /\ ask_success outcome.1 = false
   /\ conversation_history outcome.2 = conversation_history self)
  /\ (forall d,
        resolved = Some d ->
        search_document (document_store self) d question max_context_chunks = [] ->
        outcome = (AskNoContext msg_no_context question d, self)
        /\ ask_success outcome.1 = false
        /\ conversation_history outcome.2 = conversation_history self)
  /\ (forall d search_engine hits,
        resolved = Some d ->
        dict_get (search_engines (document_store self)) d = Some search_engine ->
        index_search (se_index search_engine) question max_context_chunks
        = Some hits ->
        Forall (fun hit => hit_kept (3 # 10) hit = false) hits ->
        outcome = (AskNoContext msg_no_context question d, self)).
Proof.
  intros resolved outcome.
  assert (Hnone : forall d, resolved = Some d ->
            search_document (document_store self) d question max_context_chunks = [] ->
            outcome = (AskNoContext msg_no_context question d, self)).
  { intros d Hd Hsearch. unfold outcome, ask_question.
    fold resolved. rewrite Hd, Hsearch. reflexivity. }
  split; [|split].
  - intros Hres.
    assert (E : outcome = (AskNoDocument msg_no_document question, self)).
    { unfold outcome, ask_question. fold resolved. now rewrite Hres. }
    rewrite E. repeat split.
  - intros d Hd Hsearch. rewrite (Hnone d Hd Hsearch). repeat split.
  - intros d search_engine hits Hd Hengine Hhits Hdrop.
    apply Hnone; [exact Hd|].
    unfold search_document. rewrite Hengine.
    now apply (search_none_kept _ _ _ _ hits).
Qed.

Lemma existsb_listing (doc_list : list DocListing) (doc_id : string) :
  existsb (fun doc => String.eqb (l_id doc) doc_id) doc_list = true
  <-> In doc_id (List.map l_id doc_list).
Proof.
  rewrite existsb_exists, in_map_iff. split.
  - intros (doc & Hin & Heq). apply String.eqb_eq in Heq. eauto.
  - intros (doc & Heq & Hin). exists doc. split; [exact Hin|].
    now apply String.eqb_eq.
Qed.

(** C10. When the id derived from the uploaded file is already listed
    by the store, [upload_document] makes it the current document and
    reports [is_new = False] while the conversation history stays as it
    was; an upload that reports [is_new = True] and a successful
    [select_document] both leave an empty history. *)
Theorem upload_existing_keeps_history (self : StudyMateQASystem)
  (pdf_path : string) (document_title : option (list ascii))
  (document_id : string) :
  (In (document_id_of env pdf_path)
      (List.map l_id (get_document_list (document_store self))) ->
   exists self',
     upload_document env self pdf_path document_title
     = Some (UploadExisting (document_id_of env pdf_path), self')
     /\ upload_is_new (UploadExisting (document_id_of env pdf_path)) = Some false
     /\ current_document self' = Some (document_id_of env pdf_path)
     /\ conversation_history self' = conversation_history self)
  /\ (forall r self',
        upload_document env self pdf_path document_title = Some (r, self') ->
        upload_is_new r = Some true ->
        current_document self' = Some (document_id_of env pdf_path)
        /\ conversation_history self' = [])
  /\ (forall title self',
        select_document self document_id = (Selected document_id title, self') ->
        current_document self' = Some document_id
        /\ conversation_history self' = []).
Proof.
  split; [|split].
  - intros Hin. apply existsb_listing in Hin.
    eexists. unfold upload_document. rewrite Hin.
    split; [reflexivity|]. split; [reflexivity|]. split; reflexivity.
  - intros r self'. unfold upload_document.
    destruct (existsb _ _).
    { intros [= <- <-]. discriminate. }
    destruct (text_of env pdf_path) as [raw_text|].
    2: { intros [= <- <-]. discriminate. }
    destruct (chunk_text _ _) as [chunks|]; [|discriminate].
    destruct (add_document _ _ _ _ _) as [[|] store'].
    + intros [= <- <-] _. split; reflexivity.
    + intros [= <- <-]. discriminate.
  - intros title self'. unfold select_document.
    destruct (find_listing _ _) as [doc|]; [|discriminate].
    intros [= _ <-]. split; reflexivity.
Qed.

End SessionFacts.

(** C7, as stated, fails: the preview of a chunk of 101 characters has 103
    characters. *)
Lemma preview_of_101_characters :
  let chunk := plain_chunk 0 (repeat "a"%char 101) in
  let sources :=
    a_sources
      (generate_answer demo_env {| use_watson := false |} demo_question [chunk]
         (list_ascii_of_string "Document")) in
  List.map (fun s => Py.len (s_text_preview s)) sources = [103].
Proof. vm_compute. reflexivity. Qed.

(** C5, as stated, fails: when saving the index raises, [add_document]
    raises and the document is listed all the same. *)
Lemma add_document_save_failure_listed :
  let outcome :=
    add_document (H := scripted_index true None) (scripted_env false [])
      (DocumentStore_init "/workspace/data") "doc1"
      [plain_chunk 0 (list_ascii_of_string "text")] None in
  outcome.1 = Raises
  /\ List.map l_id (get_document_list outcome.2) = ["doc1"%string].
Proof. vm_compute. split; reflexivity. Qed.

Lemma add_document_build_failure_witness :
  let outcome :=
    add_document (H := scripted_index false None) (scripted_env true [])
      (DocumentStore_init "/workspace/data") "doc1"
      [plain_chunk 0 (list_ascii_of_string "text")] None in
  outcome.1 = Raises /\ List.map l_id (get_document_list outcome.2) = [].
Proof.
  intros outcome.
  destruct (add_document_build_failure (H := scripted_index false None)
              (scripted_env true []) (DocumentStore_init "/workspace/data")
              "doc1" [plain_chunk 0 (list_ascii_of_string "text")] None
              (or_intror eq_refl)) as [E _].
  unfold outcome. rewrite E. split; reflexivity.
Defined.

Lemma ask_question_failures_witness :
  ask_question (H := demo_index) demo_env
    (StudyMateQASystem_init "/workspace/data" false) demo_question None 5
  = (AskNoDocument msg_no_document demo_question,
     StudyMateQASystem_init "/workspace/data" false)
  /\ ask_question (H := faint_index) demo_env demo_session demo_question None 5
     = (AskNoContext msg_no_context demo_question "b.pdf_0123abcd", demo_session)
  /\ conversation_history
       (ask_question (H := faint_index) demo_env demo_session demo_question
          (Some "unknown.pdf_0123abcd"%string) 5).2
     = conversation_history demo_session.
Proof.
  split; [|split].
  - exact (proj1 (proj1 (ask_question_failures (H := demo_index) demo_env
             (StudyMateQASystem_init "/workspace/data" false)
             demo_question None 5) eq_refl)).
  - eapply (proj2 (proj2 (ask_question_failures (H := faint_index) demo_env
              demo_session demo_question None 5))).
    + vm_compute. reflexivity.
    + vm_compute. reflexivity.
    + reflexivity.
    + repeat constructor.
  - apply (proj1 (proj2 (ask_question_failures (H := faint_index) demo_env
             demo_session demo_question (Some "unknown.pdf_0123abcd"%string) 5))
             "unknown.pdf_0123abcd"%string).
    + reflexivity.
    + vm_compute. reflexivity.
Defined.

Lemma upload_existing_keeps_history_witness :
  conversation_history demo_session <> []
  /\ (exists self',
        upload_document (H := demo_index) demo_env demo_session "a.pdf" None
        = Some (UploadExisting "a.pdf_0123abcd", self')
        /\ current_document self' = Some "a.pdf_0123abcd"%string
        /\ conversation_history self' = conversation_history demo_session)
  /\ match upload_document (H := demo_index) demo_env demo_session "c.pdf" None with
     | Some (r, self') =>
         upload_is_new r = Some true /\ conversation_history self' = []
     | None => False
     end
  /\ conversation_history (select_document demo_session "a.pdf_0123abcd").2 = [].
Proof.
  split; [vm_compute; discriminate|]. split; [|split].
  - destruct (proj1 (upload_existing_keeps_history (H := demo_index) demo_env
                       demo_session "a.pdf" None "a.pdf_0123abcd"))
      as (self' & Hup & _ & Hcur & Hhist).
    { vm_compute. tauto. }
    exists self'. repeat split; assumption.
  - destruct (upload_document (H := demo_index) demo_env demo_session "c.pdf" None)
      as [[r self']|] eqn:E.
    + assert (Hnew : upload_is_new r = Some true).
      { vm_compute in E. injection E as <- _. reflexivity. }
      split; [exact Hnew|].
      exact (proj2 (proj1 (proj2 (upload_existing_keeps_history (H := demo_index)
               demo_env demo_session "c.pdf" None "a.pdf_0123abcd"))
               r self' E Hnew)).
    + vm_compute in E. discriminate.
  - destruct (select_document demo_session "a.pdf_0123abcd") as [r self'] eqn:E.
    assert (Hr : r = Selected "a.pdf_0123abcd" (list_ascii_of_string "Unknown")).
    { vm_compute in E. injection E as <- _. reflexivity. }
    subst r.
    exact (proj2 (proj2 (proj2 (upload_existing_keeps_history (H := demo_index)
             demo_env demo_session "a.pdf" None "a.pdf_0123abcd"))
             _ self' E)).
Defined.

(** ** Further properties of the Python primitives *)

Lemma slice_inner {A} (l : list A) (a b : Z) :
  0 <= a -> a <= b -> b <= Py.len l ->
  Py.slice l a b = take (Z.to_nat (b - a)) (drop (Z.to_nat a) l).
Proof.
  intros Ha Hab Hb. unfold Py.slice, Py.adjust_index.
  replace (a <? 0) with false by lia. replace (b <? 0) with false by lia.
  now rewrite !Z.min_l by lia.
Qed.

Lemma slice_length {A} (l : list A) (a b : Z) :
  0 <= a -> a <= b -> b <= Py.len l -> Py.len (Py.slice l a b) = b - a.
Proof.
  intros Ha Hab Hb. rewrite slice_inner by assumption.
  unfold Py.len in *. rewrite length_take, length_drop. lia.
Qed.

Lemma slice_lookup {A} (l : list A) (a b : Z) (k : nat) :
  0 <= a -> a <= b -> b <= Py.len l -> a + Z.of_nat k < b ->
  Py.slice l a b !! k = l !! Z.to_nat (a + Z.of_nat k).
Proof.
  intros Ha Hab Hb Hk. rewrite slice_inner by assumption.
  rewrite lookup_take_lt by lia. rewrite lookup_drop. f_equal. lia.
Qed.

Lemma slice_all {A} (l : list A) : Py.slice l 0 (Py.len l) = l.
Proof.
  pose proof (len_nonneg l).
  rewrite slice_inner by lia. unfold Py.len. simpl.
  rewrite drop_0, take_ge; [reflexivity|lia].
Qed.

Lemma lstrip_length l : (List.length (Py.lstrip l) <= List.length l)%nat.
Proof.
  induction l as [|c l IH]; simpl; [lia|].
  destruct (Py.is_space c); simpl; lia.
Qed.

Lemma strip_length l : Py.len (Py.strip l) <= Py.len l.
Proof.
  unfold Py.strip, Py.rstrip, Py.len. rewrite length_rev.
  pose proof (lstrip_length (rev (Py.lstrip l))) as H1.
  rewrite length_rev in H1. pose proof (lstrip_length l). lia.
Qed.

Lemma lstrip_blank l : Forall (fun c => Py.is_space c = true) l -> Py.lstrip l = [].
Proof. induction 1 as [|c l Hc _ IH]; simpl; [reflexivity|now rewrite Hc]. Qed.

Lemma strip_blank l : Forall (fun c => Py.is_space c = true) l -> Py.strip l = [].
Proof. intros Hl. unfold Py.strip. now rewrite lstrip_blank. Qed.

Lemma rfind_scan_spec c l :
  forall i best,
    let r := Py.rfind_scan c l i best in
    r = best
    \/ (i <= r < i + Py.len l /\ l !! Z.to_nat (r - i) = Some c).
Proof.
  induction l as [|x l IH]; intros i best; simpl; [now left|].
  destruct (IH (i + 1) (if Ascii.eqb x c then i else best)) as [E | [Hr Hl]].
  - rewrite E. destruct (Ascii.eqb_spec x c) as [->|]; [|now left].
    right. unfold Py.len. simpl List.length. split; [lia|].
    now rewrite Z.sub_diag.
  - right. unfold Py.len in *. simpl List.length. split; [lia|].
    replace (Z.to_nat (Py.rfind_scan c l (i + 1) (if Ascii.eqb x c then i else best) - i))
      with (S (Z.to_nat (Py.rfind_scan c l (i + 1) (if Ascii.eqb x c then i else best) - (i + 1))))
      by lia.
    exact Hl.
Qed.

(** [rfind] answers -1 or a position of the needle inside the range. *)
Lemma rfind_spec text c a b :
  0 <= a -> a <= b -> b <= Py.len text ->
  let r := Py.rfind text c a b in
  r = -1 \/ (a <= r < b /\ text !! Z.to_nat r = Some c).
Proof.
  intros Ha Hab Hb. unfold Py.rfind.
  assert (Ea : Py.adjust_index (Py.len text) a = a).
  { unfold Py.adjust_index. replace (a <? 0) with false by lia. lia. }
  rewrite Ea.
  destruct (rfind_scan_spec c (Py.slice text a b) a (-1)) as [E | [Hr Hl]];
    [now left|right].
  rewrite slice_length in Hr by assumption. split; [lia|].
  rewrite slice_lookup in Hl by (try assumption; lia).
  rewrite <- Hl. f_equal. lia.
Qed.

(** ** Further properties of [chunk_text] *)

Lemma chunk_end_cases self text start :
  0 <= chunk_size self -> 0 <= start < Py.len text ->
  chunk_end self text start = Z.min (start + chunk_size self) (Py.len text)
  \/ (start + chunk_size self / 2 + 1 < chunk_end self text start
      /\ chunk_end self text start <= Z.min (start + chunk_size self) (Py.len text)
      /\ terminator_at text (chunk_end self text start - 1)).
Proof.
  intros Hcs Hs. unfold chunk_end.
  set (end_ := Z.min (start + chunk_size self) (Py.len text)).
  destruct (end_ <? Py.len text); [|now left].
  set (p := Py.rfind text "."%char start end_).
  set (e := Py.rfind text "!"%char start end_).
  set (q := Py.rfind text "?"%char start end_).
  destruct (Z.ltb_spec (start + chunk_size self / 2) (Z.max (Z.max p e) q))
    as [Hsnap|]; [right|now left].
  assert (Hhalf : 0 <= chunk_size self / 2) by (apply Z.div_pos; lia).
  assert (Hr : forall c, is_terminator c = true ->
            Z.max (Z.max p e) q = Py.rfind text c start end_ ->
            Z.max (Z.max p e) q + 1 <= end_
            /\ terminator_at text (Z.max (Z.max p e) q + 1 - 1)).
  { intros c Hc E.
    destruct (rfind_spec text c start end_) as [Hm | [Hin Hl]];
      [lia|unfold end_; lia|unfold end_; lia|lia|].
    rewrite <- E in Hin, Hl. split; [lia|].
    exists c. split; [|exact Hc]. rewrite <- Hl. f_equal. lia. }
  assert (Hwhich : Z.max (Z.max p e) q = p \/ Z.max (Z.max p e) q = e
                   \/ Z.max (Z.max p e) q = q) by lia.
  destruct Hwhich as [E | [E | E]].
  - destruct (Hr "."%char eq_refl E). repeat split; [lia|assumption|assumption].
  - destruct (Hr "!"%char eq_refl E). repeat split; [lia|assumption|assumption].
  - destruct (Hr "?"%char eq_refl E). repeat split; [lia|assumption|assumption].
Qed.

Lemma chunk_end_bounds self text start :
  0 < chunk_size self -> 0 <= start < Py.len text ->
  start < chunk_end self text start
  <= Z.min (start + chunk_size self) (Py.len text).
Proof.
  intros Hcs Hs.
  assert (Hhalf : 0 <= chunk_size self / 2) by (apply Z.div_pos; lia).
  destruct (chunk_end_cases self text start) as [E | (H1 & H2 & _)]; lia.
Qed.

(** A property that the loop body keeps holds of the state in which the
    loop stops. *)
Lemma chunk_loop_invariant self text (I : ChunkLoop -> Prop) :
  (forall st, I st -> cl_start st < Py.len text -> I (chunk_body self text st)) ->
  forall fuel st chunks,
    I st -> chunk_loop fuel self text st = Some chunks ->
    exists st', I st' /\ cl_chunks st' = chunks /\ Py.len text <= cl_start st'.
Proof.
  intros Hstep. induction fuel as [|fuel IH]; intros st chunks Hst; simpl;
    [discriminate|].
  destruct (Z.ltb_spec (cl_start st) (Py.len text)) as [Hlt|Hge].
  - apply IH. now apply Hstep.
  - intros [= <-]. now exists st.
Qed.

Lemma chunk_text_returns self text :
  overlap self < chunk_size self ->
  exists chunks, chunk_text self text = Some chunks.
Proof.
  intros Hlt. apply chunk_loop_enough; [exact Hlt|].
  pose proof (len_nonneg text). unfold Py.len in *. simpl. lia.
Qed.

(** What one iteration appends. *)
Lemma chunk_body_chunks self text st :
  cl_chunks (chunk_body self text st) = cl_chunks st
  /\ cl_chunk_id (chunk_body self text st) = cl_chunk_id st
  \/ exists c,
       cl_chunks (chunk_body self text st) = cl_chunks st ++ [c]
       /\ cl_chunk_id (chunk_body self text st) = cl_chunk_id st + 1
       /\ c_id c = cl_chunk_id st
       /\ c_start_pos c = cl_start st
       /\ c_end_pos c = chunk_end self text (cl_start st)
       /\ c_text c = Py.strip (Py.slice text (cl_start st)
                                 (chunk_end self text (cl_start st)))
       /\ c_text c <> []
       /\ c_length c = Py.len (c_text c).
Proof.
  unfold chunk_body.
  destruct (Py.strip _) as [|x t] eqn:E; [now left|right].
  eexists. simpl. repeat split; try reflexivity. discriminate.
Qed.

Lemma chunk_loop_S fuel self text st :
  chunk_loop (S fuel) self text st
  = if cl_start st <? Py.len text
    then chunk_loop fuel self text (chunk_body self text st)
    else Some (cl_chunks st).
Proof. reflexivity. Qed.

Lemma chunk_body_forward self text st :
  overlap self < chunk_size self ->
  cl_start st < cl_start (chunk_body self text st)
  /\ chunk_end self text (cl_start st) <= cl_start (chunk_body self text st).
Proof. intros Hlt. rewrite chunk_body_start. lia. Qed.

(** X1. The ids of the chunks that [chunk_text] returns are 0, 1, 2, ...
    in the order of the list. *)
Theorem chunk_text_ids (self : PDFProcessor) (text : list ascii) :
  overlap self < chunk_size self ->
  exists chunks,
    chunk_text self text = Some chunks
    /\ List.map c_id chunks = seqZ 0 (Py.len chunks).
Proof.
  intros Hlt. destruct (chunk_text_returns self text Hlt) as [chunks Hc].
  exists chunks. split; [exact Hc|].
  destruct (chunk_loop_invariant self text
    (fun st => cl_chunk_id st = Py.len (cl_chunks st)
               /\ List.map c_id (cl_chunks st) = seqZ 0 (Py.len (cl_chunks st))))
    with (fuel := S (List.length text)) (st := chunk_loop_init) (chunks := chunks)
    as (st' & [_ Hids] & <- & _); [| |exact Hc|exact Hids].
  - intros st [Hid Hids] _.
    destruct (chunk_body_chunks self text st)
      as [[-> ->] | (c & -> & -> & Hc_id & _)]; [now split|].
    unfold Py.len in *. rewrite length_app, map_app, Hids. simpl List.length.
    split; [lia|].
    rewrite Nat2Z.inj_add, seqZ_app by lia. simpl. now rewrite Hc_id, Hid.
  - split; reflexivity.
Qed.

(** X2. Every chunk that [chunk_text] returns has a window inside the
    text, not empty and at most [chunk_size] wide; its text is the window
    without surrounding whitespace, is not empty, and its ['length'] is the
    length of that text, between 1 and [chunk_size]. *)
Theorem chunk_text_well_formed (self : PDFProcessor) (text : list ascii) :
  0 <= overlap self < chunk_size self ->
  exists chunks,
    chunk_text self text = Some chunks
    /\ Forall (chunk_well_formed self text) chunks
    /\ Forall (fun c => 1 <= c_length c <= chunk_size self
                        /\ Py.strip (c_text c) = c_text c) chunks.
Proof.
  intros Hcs. destruct (chunk_text_returns self text) as [chunks Hc]; [lia|].
  exists chunks. split; [exact Hc|].
  destruct (chunk_loop_invariant self text
    (fun st => 0 <= cl_start st
               /\ Forall (chunk_well_formed self text) (cl_chunks st)))
    with (fuel := S (List.length text)) (st := chunk_loop_init) (chunks := chunks)
    as (st' & [_ Hwf] & <- & _); [| |exact Hc|].
  - intros st [Hstart Hwf] Hin.
    pose proof (chunk_body_forward self text st) as [Hfw _]; [lia|].
    split; [lia|].
    pose proof (chunk_end_bounds self text (cl_start st)) as Hend.
    destruct (chunk_body_chunks self text st)
      as [[-> _] | (c & -> & _ & _ & Hs & He & Ht & Hne & Hl)]; [exact Hwf|].
    apply Forall_app. split; [exact Hwf|]. constructor; [|constructor].
    unfold chunk_well_formed. rewrite Hs, He. repeat split; try lia; assumption.
  - split; [simpl; lia|constructor].
  - split; [exact Hwf|].
    eapply Forall_impl; [exact Hwf|].
    intros c (Hpos & Hend & Hwide & Ht & Hne & Hl). split.
    + rewrite Hl. split.
      * destruct (c_text c); [contradiction|]. unfold Py.len. simpl. lia.
      * rewrite Ht. pose proof (strip_length (Py.slice text (c_start_pos c) (c_end_pos c))).
        rewrite slice_length in H by lia. lia.
    + rewrite Ht. apply strip_idem.
Qed.

(** X3. The windows of the chunks that [chunk_text] returns follow each
    other without sharing a character: a chunk's window ends before the
    window of every later chunk starts, whatever [overlap] is. *)
Theorem chunk_text_windows_ordered (self : PDFProcessor) (text : list ascii) :
  overlap self < chunk_size self ->
  exists chunks,
    chunk_text self text = Some chunks
    /\ StronglySorted window_before chunks.
Proof.
  intros Hlt. destruct (chunk_text_returns self text Hlt) as [chunks Hc].
  exists chunks. split; [exact Hc|].
  destruct (chunk_loop_invariant self text
    (fun st => Forall (fun c => c_end_pos c <= cl_start st) (cl_chunks st)
               /\ StronglySorted window_before (cl_chunks st)))
    with (fuel := S (List.length text)) (st := chunk_loop_init) (chunks := chunks)
    as (st' & [_ Hs] & <- & _); [| |exact Hc|exact Hs].
  - intros st [Hbefore Hsorted] _.
    destruct (chunk_body_forward self text st Hlt) as [Hfw Hend].
    assert (Hold : Forall (fun c => c_end_pos c <= cl_start (chunk_body self text st))
                     (cl_chunks st)).
    { eapply Forall_impl; [exact Hbefore|]. simpl. intros; lia. }
    destruct (chunk_body_chunks self text st)
      as [[E _] | (c & E & _ & _ & Hcs & Hce & _)]; rewrite E.
    + now split.
    + split.
      * apply Forall_app. split; [exact Hold|].
        constructor; [rewrite Hce; exact Hend|constructor].
      * apply StronglySorted_app. split; [|split; [exact Hsorted|]].
        -- intros a b Ha Hb. apply list_elem_of_singleton in Hb as ->.
           unfold window_before. rewrite Hcs.
           rewrite Forall_forall in Hbefore. now apply Hbefore.
        -- repeat constructor.
  - split; constructor.
Qed.

(** X4. A window of [chunk_text] ends at [start + chunk_size] or at the end
    of the text, or else just after a sentence terminator that lies past
    the middle of the window. *)
Theorem chunk_text_window_ends (self : PDFProcessor) (text : list ascii) :
  0 <= overlap self < chunk_size self ->
  exists chunks,
    chunk_text self text = Some chunks
    /\ Forall
         (fun c =>
            c_end_pos c = Z.min (c_start_pos c + chunk_size self) (Py.len text)
            \/ (terminator_at text (c_end_pos c - 1)
                /\ c_start_pos c + chunk_size self / 2 + 1 < c_end_pos c))
         chunks.
Proof.
  intros Hcs. destruct (chunk_text_returns self text) as [chunks Hc]; [lia|].
  exists chunks. split; [exact Hc|].
  destruct (chunk_loop_invariant self text
    (fun st => 0 <= cl_start st
       /\ Forall
            (fun c =>
               c_end_pos c = Z.min (c_start_pos c + chunk_size self) (Py.len text)
               \/ (terminator_at text (c_end_pos c - 1)
                   /\ c_start_pos c + chunk_size self / 2 + 1 < c_end_pos c))
            (cl_chunks st)))
    with (fuel := S (List.length text)) (st := chunk_loop_init) (chunks := chunks)
    as (st' & [_ Hs] & <- & _); [| |exact Hc|exact Hs].
  - intros st [Hstart Hall] Hin.
    pose proof (chunk_body_forward self text st) as [Hfw _]; [lia|].
    split; [lia|].
    destruct (chunk_body_chunks self text st)
      as [[-> _] | (c & -> & _ & _ & Hs & He & _)]; [exact Hall|].
    apply Forall_app. split; [exact Hall|]. constructor; [|constructor].
    rewrite Hs, He.
    destruct (chunk_end_cases self text (cl_start st)) as [E | (H1 & _ & H3)];
      [lia|lia|now left|right; now split].
  - split; [simpl; lia|constructor].
Qed.



(** X6. A text that fits in one window gives one chunk, the text without
    its surrounding whitespace, and no chunk when nothing is left of it. *)
Theorem chunk_text_short (self : PDFProcessor) (text : list ascii) :
  Py.len text <= chunk_size self ->
  chunk_text self text
  = Some match Py.strip text with
         | [] => []
         | _ :: _ =>
             [ {| c_id := 0; c_text := Py.strip text;
                  c_start_pos := 0; c_end_pos := Py.len text;
                  c_length := Py.len (Py.strip text);
                  c_similarity_score := None; c_rank := None;
                  c_is_context := None |} ]
         end.
Proof.
  intros Hshort. unfold chunk_text.
  destruct text as [|x t]; [reflexivity|].
  set (text := x :: t) in *.
  change (List.length text) with (S (List.length t)).
  rewrite chunk_loop_S.
  assert (Hpos : 0 < Py.len text) by (unfold Py.len; simpl; lia).
  replace (cl_start chunk_loop_init <? Py.len text) with true
    by (simpl; lia).
  rewrite chunk_loop_S.
  assert (Hend : chunk_end self text 0 = Py.len text).
  { unfold chunk_end. rewrite Z.min_r by lia.
    now rewrite Z.ltb_irrefl. }
  replace (cl_start (chunk_body self text chunk_loop_init) <? Py.len text)
    with false.
  2: { rewrite chunk_body_start. simpl cl_start. rewrite Hend. lia. }
  unfold chunk_body. simpl cl_start. rewrite Hend, slice_all.
  destruct (Py.strip text); reflexivity.
Qed.

(** X7. A text made of whitespace only, the empty text included, gives no
    chunk. *)
Theorem chunk_text_blank (self : PDFProcessor) (text : list ascii) :
  overlap self < chunk_size self ->
  Forall (fun c => Py.is_space c = true) text ->
  chunk_text self text = Some [].
Proof.
  intros Hlt Hblank. destruct (chunk_text_returns self text Hlt) as [chunks Hc].
  rewrite Hc. f_equal.
  destruct (chunk_loop_invariant self text (fun st => cl_chunks st = []))
    with (fuel := S (List.length text)) (st := chunk_loop_init) (chunks := chunks)
    as (st' & Hnil & <- & _); [| |exact Hc|exact Hnil].
  - intros st Hnil _. unfold chunk_body.
    rewrite strip_blank; [exact Hnil|].
    unfold Py.slice. now apply Forall_take, Forall_drop.
  - reflexivity.
Qed.

Lemma chunk_text_ids_witness :
  exists chunks,
    chunk_text PDFProcessor_init
      (list_ascii_of_string "One sentence. Another one!") = Some chunks
    /\ List.map c_id chunks = seqZ 0 (Py.len chunks).
Proof. apply chunk_text_ids. simpl. lia. Defined.

Lemma chunk_text_well_formed_witness :
  exists chunks,
    chunk_text (mkPDFProcessor 10 2)
      (list_ascii_of_string "One sentence. Another one!") = Some chunks
    /\ Forall (chunk_well_formed (mkPDFProcessor 10 2)
                 (list_ascii_of_string "One sentence. Another one!")) chunks
    /\ Forall (fun c => 1 <= c_length c <= 10
                        /\ Py.strip (c_text c) = c_text c) chunks.
Proof.
  apply (chunk_text_well_formed (mkPDFProcessor 10 2)). simpl. lia.
Defined.

Lemma chunk_text_windows_ordered_witness :
  exists chunks,
    chunk_text (mkPDFProcessor 10 2)
      (list_ascii_of_string "One sentence. Another one!") = Some chunks
    /\ StronglySorted window_before chunks.
Proof. apply chunk_text_windows_ordered. simpl. lia. Defined.

Lemma chunk_text_window_ends_witness :
  exists chunks,
    chunk_text (mkPDFProcessor 10 2)
      (list_ascii_of_string "One sentence. Another one!") = Some chunks
    /\ Forall
         (fun c =>
            c_end_pos c = Z.min (c_start_pos c + 10) 26
            \/ (terminator_at (list_ascii_of_string "One sentence. Another one!")
                  (c_end_pos c - 1)
                /\ c_start_pos c + 10 / 2 + 1 < c_end_pos c))
         chunks.
Proof.
  apply (chunk_text_window_ends (mkPDFProcessor 10 2)). simpl. lia.
Defined.


Lemma chunk_text_short_witness :
  option_map (List.map (fun c => (c_id c, string_of_list_ascii (c_text c),
                                  c_start_pos c, c_end_pos c, c_length c)))
    (chunk_text PDFProcessor_init (list_ascii_of_string "  A short text. "))
  = Some [(0, "A short text."%string, 0, 16, 13)].
Proof.
  rewrite (chunk_text_short PDFProcessor_init
             (list_ascii_of_string "  A short text. ")).
  - reflexivity.
  - vm_compute. discriminate.
Defined.

Lemma chunk_text_blank_witness :
  chunk_text PDFProcessor_init (list_ascii_of_string "   ") = Some [].
Proof.
  apply chunk_text_blank.
  - simpl. lia.
  - repeat constructor.
Defined.

(** ** Further properties of [preprocess_text] and [process_pdf] *)

Lemma lstrip_Forall (P : ascii -> Prop) l : Forall P l -> Forall P (Py.lstrip l).
Proof.
  induction 1 as [|c l Hc Hl IH]; simpl; [constructor|].
  destruct (Py.is_space c); [exact IH|now constructor].
Qed.

Lemma strip_Forall (P : ascii -> Prop) l : Forall P l -> Forall P (Py.strip l).
Proof.
  intros Hl. unfold Py.strip, Py.rstrip.
  apply Forall_rev, lstrip_Forall, Forall_rev, lstrip_Forall, Hl.
Qed.


Lemma preprocess_text_line text :
  preprocess_text text
  = if 10 <? Py.len (Py.strip (collapse_and_clean text))
    then Py.strip (collapse_and_clean text) else [].
Proof.
  unfold preprocess_text. fold (collapse_and_clean text).
  rewrite (split_absent _ _ (collapse_and_clean_no_newline text)).
  simpl fold_left.
  destruct (10 <? Py.len (Py.strip (collapse_and_clean text))); simpl;
    [apply strip_idem|reflexivity].
Qed.

Lemma collapse_and_clean_chars text :
  Forall (fun c => kept_char c = true /\ (Py.is_space c = true -> c = " "%char))
    (collapse_and_clean text).
Proof.
  unfold collapse_and_clean.
  pose proof (sub_space_runs_spaces false text) as Hs.
  induction Hs as [|c l Hc _ IH]; simpl; [constructor|].
  destruct (kept_char c) eqn:E; [|exact IH].
  constructor; [now split|exact IH].
Qed.

(** X8. The text that [preprocess_text] returns has no whitespace at its
    ends, is empty or longer than 10 characters, holds only word
    characters, spaces and the punctuation [.,!?;:-()], and its only
    whitespace character is the space: no newline or tab is left. *)
Theorem preprocess_text_shape (text : list ascii) :
  let out := preprocess_text text in
  Py.strip out = out
  /\ (out = [] \/ 10 < Py.len out)
  /\ Forall (fun c => kept_char c = true
                      /\ (Py.is_space c = true -> c = " "%char)) out.
Proof.
  intros out. unfold out. rewrite preprocess_text_line.
  destruct (Z.ltb_spec 10 (Py.len (Py.strip (collapse_and_clean text)))).
  - split; [apply strip_idem|]. split; [now right|].
    apply strip_Forall, collapse_and_clean_chars.
  - split; [reflexivity|]. split; [now left|constructor].
Qed.




(** ** Further properties of [search] and [get_context_window] *)

Section MoreSearchFacts.
Context {Index : Type} `{VectorIndex Index}.

Lemma search_loop_positions chunks thr hits :
  forall i results out,
    search_loop chunks thr i hits results = Some out ->
    exists found,
      out = results ++ found
      /\ Py.len found <= Py.len hits
      /\ StronglySorted (fun a b => rank_of a < rank_of b) found
      /\ Forall
           (fun c =>
              c_rank c = Some (rank_of c)
              /\ i < rank_of c <= i + Py.len hits
              /\ exists hit,
                   hits !! Z.to_nat (rank_of c - 1 - i) = Some hit
                   /\ hit_kept thr hit = true
                   /\ copy_of_hit chunks hit c)
           found.
Proof.
  induction hits as [|[score idx] hits IH]; intros i results out; simpl.
  - intros [= <-]. exists []. rewrite app_nil_r.
    repeat split; try constructor. unfold Py.len. simpl. lia.
  - destruct (negb (idx =? -1) && Qle_bool thr score) eqn:Hkeep.
    + destruct (Py.index chunks idx) as [chunk|] eqn:Hidx; [|discriminate].
      intros Hloop.
      destruct (IH _ _ _ Hloop) as (found & -> & Hlen & Hsorted & Hall).
      eexists (_ :: found). split; [now rewrite <- app_assoc|].
      unfold Py.len in *. simpl List.length. split; [lia|]. split.
      * constructor; [exact Hsorted|].
        eapply Forall_impl; [exact Hall|]. simpl.
        intros c (_ & Hr & _). unfold rank_of at 1. simpl. lia.
      * constructor.
        -- unfold rank_of. simpl. split; [reflexivity|]. split; [lia|].
           exists (score, idx). replace (i + 1 - 1 - i) with 0 by lia.
           split; [reflexivity|]. split; [exact Hkeep|].
           split; [reflexivity|]. exists chunk.
           repeat split; (assumption || reflexivity).
        -- eapply Forall_impl; [exact Hall|]. simpl.
           intros c (Hrank & Hr & hit & Hhit & Hk & Hcopy).
           split; [exact Hrank|]. split; [lia|]. exists hit.
           split; [|now split].
           replace (Z.to_nat (rank_of c - 1 - i))
             with (S (Z.to_nat (rank_of c - 1 - (i + 1)))) by lia.
           exact Hhit.
    + intros Hloop.
      destruct (IH _ _ _ Hloop) as (found & -> & Hlen & Hsorted & Hall).
      exists found. split; [reflexivity|].
      unfold Py.len in *. simpl List.length. split; [lia|].
      split; [exact Hsorted|].
      eapply Forall_impl; [exact Hall|]. simpl.
      intros c (Hrank & Hr & hit & Hhit & Hk & Hcopy).
      split; [exact Hrank|]. split; [lia|]. exists hit.
      split; [|now split].
      replace (Z.to_nat (rank_of c - 1 - i))
        with (S (Z.to_nat (rank_of c - 1 - (i + 1)))) by lia.
      exact Hhit.
Qed.

(** X10. Whatever the order of the hits, [search] returns at most as many
    chunks as the index reported hits; the rank of a returned chunk is the
    1-based position of its hit in the answer of the index, ranks increase
    strictly along the result, and each returned chunk is a copy of the
    stored chunk that its hit names, with the score of that hit. *)
Theorem search_ranks_are_positions (self : SemanticSearchEngine)
  (query : list ascii) (k : Z) (score_threshold : Q) (hits : Hits) :
  index_search (se_index self) query k = Some hits ->
  let results := search self query k score_threshold in
  Py.len results <= Py.len hits
  /\ StronglySorted (fun a b => rank_of a < rank_of b) results
  /\ Forall (result_of_hit (se_chunks self) score_threshold hits) results.
Proof.
  intros Hhits results.
  destruct (search_cases self query k score_threshold hits Hhits) as [E|E];
    fold results in E.
  - rewrite E. pose proof (len_nonneg hits).
    repeat split; try constructor. unfold Py.len at 1. simpl. lia.
  - destruct (search_loop_positions _ _ _ _ _ _ E)
      as (found & Hf & Hlen & Hsorted & Hall).
    simpl in Hf. subst found. split; [exact Hlen|]. split; [exact Hsorted|].
    eapply Forall_impl; [exact Hall|]. simpl.
    intros c (Hrank & Hr & hit & Hhit & Hk & Hcopy).
    unfold result_of_hit. split; [exact Hrank|]. split; [lia|].
    exists hit. replace (rank_of c - 1 - 0) with (rank_of c - 1) in Hhit by lia.
    auto.
Qed.

(** X11. When a hit that passes the filter carries a label that does not
    index the stored chunks, [search] returns the empty list: the chunks
    found before that hit are lost with it. *)
Theorem search_index_error (self : SemanticSearchEngine)
  (query : list ascii) (k : Z) (score_threshold : Q) (hits : Hits) :
  index_search (se_index self) query k = Some hits ->
  Exists (fun hit => hit_kept score_threshold hit = true
                     /\ Py.index (se_chunks self) hit.2 = None) hits ->
  search self query k score_threshold = [].
Proof.
  intros Hhits Hbad. unfold search. rewrite Hhits.
  destruct (index_ntotal (se_index self) =? 0); [reflexivity|].
  now rewrite (search_loop_index_error _ _ _ Hbad).
Qed.

(** X12. [get_context_window] raises [IndexError] when the id of a hit
    does not index the stored chunks. *)
Theorem get_context_window_index_error (self : @SemanticSearchEngine Index)
  (hits : list Chunk) (w : Z) :
  Exists (fun h => Py.index (se_chunks self) (c_id h) = None) hits ->
  get_context_window self hits w = None.
Proof.
  intros Hbad. unfold get_context_window.
  destruct hits as [|h0 hits']; [now apply Exists_nil in Hbad|].
  set (hits := h0 :: hits') in *.
  apply mapM_None_2. apply Exists_exists in Hbad as (h & Hh & Hnone).
  apply Exists_exists. exists (c_id h). split.
  - apply elem_of_sorted, elem_of_expanded_ids. exists (c_id h).
    split; [|now left]. now apply list_elem_of_In, in_map, list_elem_of_In.
  - now rewrite Hnone.
Qed.

(** X13. [get_context_window] depends on the hits only through the set of
    their ids: two hit lists with the same ids, in any order and with any
    repetition, give the same chunks. *)
Theorem get_context_window_ids_only (self : @SemanticSearchEngine Index)
  (hits1 hits2 : list Chunk) (w : Z) :
  (forall j, j ∈ List.map c_id hits1 <-> j ∈ List.map c_id hits2) ->
  get_context_window self hits1 w = get_context_window self hits2 w.
Proof.
  intros Hsame. unfold get_context_window.
  destruct hits1 as [|a l1], hits2 as [|b l2]; [reflexivity| | |].
  - exfalso. eapply elem_of_nil. apply (proj2 (Hsame (c_id b))).
    apply elem_of_cons. now left.
  - exfalso. eapply elem_of_nil. apply (proj1 (Hsame (c_id a))).
    apply elem_of_cons. now left.
  - set (ids1 := List.map c_id (a :: l1)) in *.
    set (ids2 := List.map c_id (b :: l2)) in *.
    assert (E : expanded_ids (Py.len (se_chunks self)) ids1 w
                = expanded_ids (Py.len (se_chunks self)) ids2 w).
    { apply set_eq. intros j. rewrite !elem_of_expanded_ids.
      split; intros (h & Hh & Hj); exists h; (split; [now apply Hsame|exact Hj]). }
    rewrite E. apply mapM_ext. intros chunk_id.
    destruct (Py.index (se_chunks self) chunk_id); [|reflexivity].
    do 3 f_equal. apply bool_decide_ext. now rewrite Hsame.
Qed.

End MoreSearchFacts.

(** ** Properties of the dictionaries *)

Lemma dict_get_set_eq {V} (d : dict V) k v : dict_get (dict_set d k v) k = Some v.
Proof.
  induction d as [|[k' v'] d IH]; simpl.
  - now rewrite String.eqb_refl.
  - destruct (String.eqb k k') eqn:E; simpl; rewrite ?String.eqb_refl, ?E; auto.
Qed.

Lemma dict_get_set_ne {V} (d : dict V) k k' v :
  k <> k' -> dict_get (dict_set d k v) k' = dict_get d k'.
Proof.
  intros Hne. induction d as [|[k0 v0] d IH]; simpl.
  - destruct (String.eqb_spec k' k); [congruence|reflexivity].
  - destruct (String.eqb_spec k k0) as [->|]; simpl.
    + destruct (String.eqb_spec k' k0); [congruence|reflexivity].
    + destruct (String.eqb_spec k' k0); [reflexivity|exact IH].
Qed.

Lemma dict_get_None {V} (d : dict V) k :
  dict_get d k = None <-> ~ In k (List.map fst d).
Proof.
  induction d as [|[k' v'] d IH]; simpl; [tauto|].
  destruct (String.eqb_spec k k') as [->|Hne].
  - split; [discriminate|]. intros Hn. exfalso. apply Hn. now left.
  - rewrite IH. split; [intros Hn [E|Hin]; [congruence|tauto]|tauto].
Qed.

Lemma dict_set_keys {V} (d : dict V) k v :
  List.map fst (dict_set d k v)
  = match dict_get d k with
    | Some _ => List.map fst d
    | None => List.map fst d ++ [k]
    end.
Proof.
  induction d as [|[k' v'] d IH]; simpl; [reflexivity|].
  destruct (String.eqb_spec k k') as [->|Hne]; simpl; [reflexivity|].
  rewrite IH. now destruct (dict_get d k).
Qed.

Lemma dict_set_values {V} (P : V -> Prop) (d : dict V) k v :
  Forall P (List.map snd d) -> P v -> Forall P (List.map snd (dict_set d k v)).
Proof.
  intros Hd Hv. induction d as [|[k' v'] d IH]; simpl.
  - now constructor.
  - apply Forall_cons in Hd as [Hv' Hd].
    destruct (String.eqb k k'); simpl; constructor; auto.
Qed.

Lemma dict_set_NoDup {V} (d : dict V) k v :
  NoDup (List.map fst d) -> NoDup (List.map fst (dict_set d k v)).
Proof.
  intros Hnd. rewrite dict_set_keys.
  destruct (dict_get d k) eqn:E; [exact Hnd|].
  apply NoDup_app. split; [exact Hnd|]. split.
  - intros x Hx Hk. apply list_elem_of_singleton in Hk as ->.
    apply dict_get_None in E. apply E. now apply list_elem_of_In.
  - apply NoDup_singleton.
Qed.

(** ** Further properties of the store *)

Section StoreFacts.
Context {Index : Type} `{VectorIndex Index}.
Variable env : Environment.

Lemma listed_ids_keys (self : @DocumentStore Index) :
  listed_ids self = List.map fst (documents self).
Proof.
  unfold listed_ids, get_document_list.
  induction (documents self) as [|[k info] l IH]; simpl; [reflexivity|].
  now rewrite IH.
Qed.

Lemma find_listing_dict_get (self : @DocumentStore Index) (d : string) :
  find_listing (get_document_list self) d
  = option_map
      (fun info =>
         {| l_id := d; l_metadata := d_metadata info;
            l_chunk_count := Py.len (d_chunks info);
            l_created_at := d_created_at info |})
      (dict_get (documents self) d).
Proof.
  unfold find_listing, get_document_list.
  induction (documents self) as [|[k info] l IH]; simpl; [reflexivity|].
  destruct (String.eqb_spec k d) as [->|Hne].
  - now rewrite String.eqb_refl.
  - destruct (String.eqb_spec d k); [congruence|exact IH].
Qed.

(** The store with the document and its engine put in. *)
Lemma add_document_cases (self : DocumentStore) doc_id chunks metadata :
  add_document env self doc_id chunks metadata = (Raises, self)
  \/ exists search_engine,
       build_index SemanticSearchEngine_init chunks = Some search_engine
       /\ (add_document env self doc_id chunks metadata).2
          = {| storage_path := storage_path self;
               documents :=
                 dict_set (documents self) doc_id
                   {| d_chunks := chunks;
                      d_metadata := default empty_metadata metadata;
                      d_created_at := now env |};
               search_engines :=
                 dict_set (search_engines self) doc_id search_engine |}.
Proof.
  unfold add_document. destruct (model_loads env); simpl; [|now left].
  destruct (build_index SemanticSearchEngine_init chunks) as [engine|];
    [|now left].
  right. exists engine. split; [reflexivity|].
  now destruct (index_saved env (storage_path self) doc_id).
Qed.

Lemma add_document_returns (self self' : DocumentStore) doc_id chunks metadata :
  add_document env self doc_id chunks metadata = (Returns, self') ->
  exists search_engine,
    build_index SemanticSearchEngine_init chunks = Some search_engine
    /\ self' = {| storage_path := storage_path self;
                  documents :=
                    dict_set (documents self) doc_id
                      {| d_chunks := chunks;
                         d_metadata := default empty_metadata metadata;
                         d_created_at := now env |};
                  search_engines :=
                    dict_set (search_engines self) doc_id search_engine |}.
Proof.
  intros E.
  destruct (add_document_cases self doc_id chunks metadata)
    as [E' | (engine & Hb & E')].
  - congruence.
  - exists engine. split; [exact Hb|]. now rewrite E in E'.
Qed.

(** X14. When [add_document] returns, [get_document_list] shows the
    document with the number of its chunks and its metadata, once: at the
    place it had when the id was already listed, last otherwise; the
    entries of the other documents and their engines are as before, and
    the engine kept for the document is the one built from its chunks. *)
Theorem add_document_registers (self self' : DocumentStore) (doc_id : string)
  (chunks : list Chunk) (metadata : option Metadata) :
  add_document env self doc_id chunks metadata = (Returns, self') ->
  find_listing (get_document_list self') doc_id
  = Some {| l_id := doc_id; l_metadata := default empty_metadata metadata;
            l_chunk_count := Py.len chunks; l_created_at := now env |}
  /\ listed_ids self'
     = (if existsb (String.eqb doc_id) (listed_ids self)
        then listed_ids self else listed_ids self ++ [doc_id])
  /\ (forall d, d <> doc_id ->
        find_listing (get_document_list self') d
        = find_listing (get_document_list self) d
        /\ dict_get (search_engines self') d = dict_get (search_engines self) d)
  /\ exists search_engine,
       build_index SemanticSearchEngine_init chunks = Some search_engine
       /\ dict_get (search_engines self') doc_id = Some search_engine
       /\ se_chunks search_engine = chunks.
Proof.
  intros E. destruct (add_document_returns _ _ _ _ _ E) as (engine & Hb & ->).
  split; [|split; [|split]].
  - rewrite find_listing_dict_get. simpl. now rewrite dict_get_set_eq.
  - rewrite !listed_ids_keys. simpl. rewrite dict_set_keys.
    destruct (dict_get (documents self) doc_id) eqn:Hg.
    + replace (existsb _ _) with true; [reflexivity|].
      symmetry. apply existsb_exists. exists doc_id.
      split; [|apply String.eqb_refl].
      destruct (in_dec string_dec doc_id (List.map fst (documents self)));
        [assumption|].
      apply dict_get_None in n. congruence.
    + replace (existsb _ _) with false; [reflexivity|].
      symmetry. apply not_true_is_false. intros Hex.
      apply existsb_exists in Hex as (x & Hin & Hx).
      apply String.eqb_eq in Hx as <-. now apply dict_get_None in Hg.
  - intros d Hne. rewrite !find_listing_dict_get. simpl.
    rewrite !dict_get_set_ne by congruence. split; reflexivity.
  - exists engine. split; [exact Hb|]. simpl.
    split; [apply dict_get_set_eq|].
    unfold build_index in Hb.
    destruct (index_add _ _); [|discriminate]. now injection Hb as <-.
Qed.

Lemma add_document_keeps_consistent (self : DocumentStore) doc_id chunks metadata :
  store_consistent self ->
  store_consistent (add_document env self doc_id chunks metadata).2.
Proof.
  intros Hok.
  destruct (add_document_cases self doc_id chunks metadata)
    as [-> | (engine & _ & ->)]; [exact Hok|].
  destruct Hok as [Hkeys Hnd]. split; simpl.
  - rewrite !dict_set_keys, Hkeys.
    assert (Hsame : dict_get (documents self) doc_id = None
                    <-> dict_get (search_engines self) doc_id = None)
      by (rewrite !dict_get_None, Hkeys; tauto).
    destruct (dict_get (documents self) doc_id),
             (dict_get (search_engines self) doc_id);
      try reflexivity; destruct Hsame as [H1 H2];
      [specialize (H2 eq_refl)|specialize (H1 eq_refl)]; discriminate.
  - now apply dict_set_NoDup.
Qed.

Lemma add_document_keeps_listed (self : DocumentStore) doc_id chunks metadata d :
  In d (listed_ids self) ->
  In d (listed_ids (add_document env self doc_id chunks metadata).2).
Proof.
  intros Hin.
  destruct (add_document_cases self doc_id chunks metadata)
    as [-> | (engine & _ & ->)]; [exact Hin|].
  rewrite listed_ids_keys in *. simpl. rewrite dict_set_keys.
  destruct (dict_get (documents self) doc_id); [exact Hin|].
  apply in_or_app. now left.
Qed.

Lemma engine_listed (self : @DocumentStore Index) d :
  store_consistent self ->
  In d (listed_ids self) <-> is_Some (dict_get (search_engines self) d).
Proof.
  intros [Hkeys _]. rewrite listed_ids_keys, Hkeys.
  destruct (dict_get (search_engines self) d) eqn:Hg.
  - split; [eauto|]. intros _.
    destruct (in_dec string_dec d (List.map fst (search_engines self)));
      [assumption|].
    apply dict_get_None in n. congruence.
  - split; [|intros [? ?]; discriminate].
    intros Hin. now apply dict_get_None in Hg.
Qed.

(** X15. [add_document] keeps a store consistent whether it returns or
    raises: both dictionaries have the same keys, without repetition, so
    a document is listed exactly when an engine is kept for it. *)
Theorem add_document_consistent (self : DocumentStore) (doc_id : string)
  (chunks : list Chunk) (metadata : option Metadata) :
  store_consistent self ->
  let self' := (add_document env self doc_id chunks metadata).2 in
  store_consistent self'
  /\ forall d, In d (listed_ids self')
               <-> is_Some (dict_get (search_engines self') d).
Proof.
  intros Hok self'.
  assert (Hok' : store_consistent self')
    by now apply add_document_keeps_consistent.
  split; [exact Hok'|].
  intros d. rewrite listed_ids_keys. destruct Hok' as [-> _].
  destruct (dict_get (search_engines self') d) eqn:Hg.
  - split; [eauto|]. intros _.
    destruct (in_dec string_dec d (List.map fst (search_engines self')));
      [assumption|].
    apply dict_get_None in n. congruence.
  - split; [|intros [? ?]; discriminate].
    intros Hin. now apply dict_get_None in Hg.
Qed.

Lemma search_all_documents_acc (query : list ascii) (k : Z)
  (engines : dict (@SemanticSearchEngine Index)) (d : string) :
  NoDup (List.map fst engines) ->
  forall acc : dict (list Chunk),
    dict_get
      (fold_left
         (fun (results : dict (list Chunk)) '(doc_id, search_engine) =>
            match search search_engine query k (3 # 10) with
            | [] => results
            | _ :: _ => dict_set results doc_id (search search_engine query k (3 # 10))
            end)
         engines acc) d
    = match dict_get engines d with
      | Some search_engine =>
          match search search_engine query k (3 # 10) with
          | [] => dict_get acc d
          | c :: found => Some (c :: found)
          end
      | None => dict_get acc d
      end.
Proof.
  induction engines as [|[k0 e0] engines IH]; intros Hnd acc; simpl;
    [reflexivity|].
  simpl in Hnd. apply NoDup_cons in Hnd as [Hk0 Hnd].
  rewrite (IH Hnd).
  destruct (String.eqb_spec d k0) as [->|Hne].
  - assert (Hfresh : dict_get engines k0 = None).
    { apply dict_get_None. intros Hin. apply Hk0. now apply list_elem_of_In. }
    rewrite Hfresh.
    destruct (search e0 query k (3 # 10)) eqn:Es; [reflexivity|].
    apply dict_get_set_eq.
  - assert (Hacc : dict_get
              match search e0 query k (3 # 10) with
              | [] => acc
              | _ :: _ => dict_set acc k0 (search e0 query k (3 # 10))
              end d = dict_get acc d).
    { destruct (search e0 query k (3 # 10)); [reflexivity|].
      apply dict_get_set_ne. congruence. }
    now rewrite Hacc.
Qed.

(** X16. In a store without repeated keys, [search_all_documents] maps a
    document id to what [search_document] returns for it, and leaves out
    the documents, known or not, for which that is empty. *)
Theorem search_all_documents_agrees (self : DocumentStore)
  (query : list ascii) (k : Z) (d : string) :
  NoDup (List.map fst (search_engines self)) ->
  dict_get (search_all_documents self query k) d
  = match search_document self d query k with
    | [] => None
    | c :: found => Some (c :: found)
    end.
Proof.
  intros Hnd. unfold search_all_documents, search_document.
  rewrite (search_all_documents_acc query k (search_engines self) d Hnd []).
  destruct (dict_get (search_engines self) d) as [engine|]; reflexivity.
Qed.

End StoreFacts.

(** ** Further properties of the session *)

Lemma prefix_length_le {A} (l : list A) (n : Z) : Py.len (Py.prefix l n) <= Py.len l.
Proof.
  unfold Py.prefix, Py.slice, Py.len. rewrite length_take, length_drop. lia.
Qed.

Lemma prefix_length {A} (l : list A) (n : Z) :
  0 <= n -> Py.len (Py.prefix l n) = Z.min n (Py.len l).
Proof.
  intros Hn. rewrite prefix_take by exact Hn. unfold Py.len.
  rewrite length_take. lia.
Qed.

Lemma matches_total (results : dict (list Chunk)) :
  Forall (fun entry => entry.2 <> []) results ->
  Py.len results
  <= sum_Z (List.map (fun '(_, found) => Py.len found) results)
  /\ (sum_Z (List.map (fun '(_, found) => Py.len found) results) = 0
      <-> results = []).
Proof.
  induction 1 as [|[d found] results Hne _ [IHle IHz]]; simpl.
  - unfold Py.len. simpl. split; [lia|tauto].
  - simpl in Hne. pose proof (len_nonneg results).
    assert (0 < Py.len found).
    { destruct found; [contradiction|]. unfold Py.len. simpl. lia. }
    unfold Py.len in *. simpl List.length. split; [lia|].
    split; [lia|discriminate].
Qed.

Section MoreSessionFacts.
Context {Index : Type} `{VectorIndex Index}.
Variable env : Environment.

Lemma search_all_documents_nonempty (self : @DocumentStore Index) query k :
  Forall (fun entry => entry.2 <> []) (search_all_documents self query k).
Proof.
  unfold search_all_documents.
  assert (Hgen : forall engines (acc : dict (list Chunk)),
    Forall (fun found => found <> []) (List.map snd acc) ->
    Forall (fun found => found <> [])
      (List.map snd
         (fold_left
            (fun (results : dict (list Chunk)) '(doc_id, search_engine) =>
               let doc_results := search search_engine query k (3 # 10) in
               match doc_results with
               | [] => results
               | _ :: _ => dict_set results doc_id doc_results
               end) engines acc))).
  { induction engines as [|[d e] engines IH]; intros acc Hacc; simpl;
      [exact Hacc|].
    apply IH. destruct (search e query k (3 # 10)) eqn:Es; [exact Hacc|].
    apply dict_set_values; [exact Hacc|discriminate]. }
  specialize (Hgen (search_engines self) []). simpl in Hgen.
  apply Forall_forall. intros entry Hin.
  assert (Hnil : Forall (fun found : list Chunk => found <> []) [])
    by constructor.
  specialize (Hgen Hnil). rewrite Forall_forall in Hgen. apply Hgen.
  now apply list_elem_of_In, in_map, list_elem_of_In.
Qed.

(** X17. In the result of [search_documents] every listed document has at
    least one match, so the number of documents reported as searched is
    the number of documents with matches and is at most the total number
    of matches, and that total is zero exactly when no document is
    listed. *)
Theorem search_documents_totals (self : StudyMateQASystem)
  (query : list ascii) (document_id : option string) :
  let r := search_documents self query document_id in
  Forall (fun entry => entry.2 <> []) (so_results r)
  /\ so_total_documents_searched r = Py.len (so_results r)
  /\ so_total_documents_searched r <= so_total_matches r
  /\ (so_total_matches r = 0 <-> so_results r = []).
Proof.
  intros r.
  assert (Hne : Forall (fun entry => entry.2 <> []) (so_results r)).
  { unfold r, search_documents. simpl.
    destruct document_id as [[|c d]|];
      try apply search_all_documents_nonempty.
    destruct (search_document _ _ _ _) eqn:Es; [constructor|].
    constructor; [discriminate|constructor]. }
  split; [exact Hne|]. split; [reflexivity|].
  exact (matches_total (so_results r) Hne).
Qed.

(** X18. For a limit above zero [get_conversation_history] returns the
    last [limit] entries of the history, or all of them when there are
    fewer; for the limit zero it returns the whole history. *)
Theorem get_conversation_history_last (self : @StudyMateQASystem Index)
  (limit : Z) :
  0 <= limit ->
  get_conversation_history self limit
  = if limit =? 0 then conversation_history self
    else drop (List.length (conversation_history self) - Z.to_nat limit)
           (conversation_history self).
Proof.
  intros Hl. unfold get_conversation_history.
  destruct (conversation_history self) as [|e h] eqn:Eh.
  { destruct (limit =? 0); [reflexivity|now rewrite drop_nil]. }
  rewrite <- Eh. clear Eh. set (h' := conversation_history self).
  unfold Py.slice, Py.adjust_index. pose proof (len_nonneg h') as Hn.
  replace (Py.len h' <? 0) with false by lia.
  rewrite (Z.min_l (Py.len h') (Py.len h')) by lia.
  destruct (Z.eqb_spec limit 0) as [->|Hne].
  - change (- 0 <? 0) with false. cbv iota.
    rewrite (Z.min_l (- 0) (Py.len h')) by lia.
    change (Z.to_nat (- 0)) with 0%nat. rewrite drop_0.
    apply take_ge. unfold Py.len. lia.
  - replace (- limit <? 0) with true by lia.
    rewrite take_ge by (rewrite length_drop; unfold Py.len; lia).
    f_equal. unfold Py.len. lia.
Qed.

(** X19. When the retrieval from the document in use returns chunks,
    [ask_question] succeeds with an answer that is not empty, reports the
    number of chunks retrieved and at most three sources, appends exactly
    one entry with the question, that answer and the document id to the
    history, and leaves the store and the current document as they
    were. *)
Theorem ask_question_answers (self : StudyMateQASystem)
  (question : list ascii) (document_id : option string)
  (max_context_chunks : Z) (d : string) :
  match document_id with
  | None => current_document self
  | Some d' => Some d'
  end = Some d ->
  search_document (document_store self) d question max_context_chunks <> [] ->
  exists result,
    ask_question env self question document_id max_context_chunks
    = (AskAnswered result,
       with_session self (document_store self) (current_document self)
         (conversation_history self ++
            [ {| h_question := question; h_answer := q_answer result;
                 h_timestamp := now env; h_document_id := d |} ]))
    /\ q_document_id result = d
    /\ q_answer result <> []
    /\ q_context_chunks_used result
       = Py.len (search_document (document_store self) d question
                   max_context_chunks)
    /\ Py.len (q_sources result) <= 3.
Proof.
  intros Hd Hfound. unfold ask_question. rewrite Hd.
  destruct (search_document (document_store self) d question max_context_chunks)
    as [|c found] eqn:Es; [contradiction|].
  eexists. split; [reflexivity|]. simpl.
  split; [reflexivity|]. split; [|split; [reflexivity|]].
  - destruct (llm_answer env _ _ _ _) as [[|x answer]|]; discriminate.
  - unfold Py.len. rewrite length_map.
    pose proof (prefix_length (c :: found) 3). unfold Py.len in *.
    simpl List.length in *. lia.
Qed.

Lemma upload_processed (self self' : StudyMateQASystem) pdf_path title
  doc_id t a pages n total :
  upload_document env self pdf_path title
  = Some (UploadProcessed doc_id t a pages n total, self') ->
  doc_id = document_id_of env pdf_path
  /\ exists chunks metadata store',
       add_document env (document_store self) doc_id chunks metadata
       = (Returns, store')
       /\ self' = with_session self store' (Some doc_id) [].
Proof.
  unfold upload_document.
  destruct (existsb _ _); [discriminate|].
  destruct (text_of env pdf_path) as [raw_text|]; [|discriminate].
  destruct (chunk_text _ _) as [chunks|]; [|discriminate].
  destruct (add_document _ _ _ _ _) as [[|] store'] eqn:Ea; [|discriminate].
  intros [= <- _ _ _ _ _ <-]. split; [reflexivity|]. eauto.
Qed.

(** X20. After an upload that processed a document, uploading the same
    file again reports the same id with [is_new = False] and changes
    nothing: the store, the current document and the history stay as the
    first upload left them. *)
Theorem upload_document_again (self self' : StudyMateQASystem)
  (pdf_path : string) (title title' : option (list ascii))
  (doc_id : string) (t a : list ascii) (pages n total : Z) :
  upload_document env self pdf_path title
  = Some (UploadProcessed doc_id t a pages n total, self') ->
  upload_document env self' pdf_path title'
  = Some (UploadExisting doc_id, self')
  /\ current_document self' = Some doc_id
  /\ conversation_history self' = [].
Proof.
  intros Hup.
  destruct (upload_processed _ _ _ _ _ _ _ _ _ _ Hup)
    as (-> & chunks & metadata & store' & Ha & ->).
  split; [|split; reflexivity].
  unfold upload_document. simpl document_store.
  replace (existsb _ (get_document_list store')) with true; [reflexivity|].
  symmetry. apply existsb_listing.
  destruct (add_document_returns env _ _ _ _ _ Ha) as (engine & _ & ->).
  change (In (document_id_of env pdf_path)
            (listed_ids
               {| storage_path := storage_path (document_store self);
                  documents :=
                    dict_set (documents (document_store self))
                      (document_id_of env pdf_path)
                      {| d_chunks := chunks;
                         d_metadata := default empty_metadata metadata;
                         d_created_at := now env |};
                  search_engines :=
                    dict_set (search_engines (document_store self))
                      (document_id_of env pdf_path) engine |})).
  rewrite listed_ids_keys. simpl. rewrite dict_set_keys.
  destruct (dict_get (documents (document_store self))
              (document_id_of env pdf_path)) eqn:Hg.
  - destruct (in_dec string_dec (document_id_of env pdf_path)
                (List.map fst (documents (document_store self))));
      [assumption|].
    apply dict_get_None in n0. congruence.
  - apply in_or_app. right. now left.
Qed.

(** X21. An upload that fails leaves the current document and the
    conversation history as they were, and every document that was listed
    stays listed. *)
Theorem upload_document_failure (self self' : StudyMateQASystem)
  (pdf_path : string) (title : option (list ascii)) :
  upload_document env self pdf_path title = Some (UploadFailed, self') ->
  current_document self' = current_document self
  /\ conversation_history self' = conversation_history self
  /\ forall d, In d (listed_ids (document_store self)) ->
               In d (listed_ids (document_store self')).
Proof.
  unfold upload_document.
  destruct (existsb _ _); [discriminate|].
  destruct (text_of env pdf_path) as [raw_text|].
  2: { intros [= <-]. auto. }
  destruct (chunk_text _ _) as [chunks|]; [|discriminate].
  destruct (add_document _ _ _ _ _) as [[|] store'] eqn:Ea; [discriminate|].
  intros [= <-]. simpl. split; [reflexivity|]. split; [reflexivity|].
  intros d Hin.
  pose proof (add_document_keeps_listed env (document_store self)
                (document_id_of env pdf_path) chunks
                (Some match title with
                      | Some (c :: t0) =>
                          mkMetadata (Some (c :: t0))
                            (m_author (metadata_of env pdf_path))
                            (m_subject (metadata_of env pdf_path))
                            (m_creator (metadata_of env pdf_path))
                            (m_producer (metadata_of env pdf_path))
                            (m_creation_date (metadata_of env pdf_path))
                            (m_modification_date (metadata_of env pdf_path))
                            (m_page_count (metadata_of env pdf_path))
                      | _ => metadata_of env pdf_path
                      end) d Hin) as Hk.
  now rewrite Ea in Hk.
Qed.

(** X22. [select_document] succeeds exactly on the listed ids: for an id
    that is not listed it reports failure and leaves the session as it
    was; for a listed id it reports the title of the document, or
    ["Unknown"] without one, and makes it the current document with an
    empty history. *)
Theorem select_document_listed (self : @StudyMateQASystem Index)
  (document_id : string) :
  (~ In document_id (listed_ids (document_store self)) ->
   select_document self document_id = (SelectNotFound, self))
  /\ (In document_id (listed_ids (document_store self)) ->
      exists info,
        dict_get (documents (document_store self)) document_id = Some info
        /\ select_document self document_id
           = (Selected document_id
                (default (list_ascii_of_string "Unknown")
                   (m_title (d_metadata info))),
              with_session self (document_store self) (Some document_id) [])).
Proof.
  unfold select_document. rewrite find_listing_dict_get, listed_ids_keys.
  split.
  - intros Hn. apply dict_get_None in Hn. now rewrite Hn.
  - intros Hin.
    destruct (dict_get (documents (document_store self)) document_id)
      as [info|] eqn:Hg.
    + exists info. split; reflexivity.
    + now apply dict_get_None in Hg.
Qed.

End MoreSessionFacts.

Section SessionInvariant.
Context {Index : Type} `{VectorIndex Index}.
Variable env : Environment.

Lemma session_ok_upload (self self' : StudyMateQASystem) pdf_path title r :
  session_ok self ->
  upload_document env self pdf_path title = Some (r, self') ->
  session_ok self'.
Proof.
  intros (Hstore & Hcur & Hhist). unfold upload_document.
  destruct (existsb _ _) eqn:Ex.
  { intros [= _ <-]. split; [exact Hstore|]. split; [|exact Hhist].
    simpl. intros d [= <-]. now apply existsb_listing in Ex. }
  destruct (text_of env pdf_path) as [raw_text|].
  2: { intros [= _ <-]. now split. }
  destruct (chunk_text _ _) as [chunks|]; [|discriminate].
  set (metadata := Some _).
  pose proof (add_document_keeps_consistent env (document_store self)
                (document_id_of env pdf_path) chunks metadata Hstore) as Hc.
  pose proof (add_document_keeps_listed env (document_store self)
                (document_id_of env pdf_path) chunks metadata) as Hl.
  destruct (add_document _ _ _ _ _) as [[|] store'] eqn:Ea; simpl in Hc, Hl;
    intros [= _ <-]; (split; [exact Hc|]); simpl.
  - split; [|constructor]. intros d [= <-].
    destruct (add_document_returns env _ _ _ _ _ Ea) as (engine & _ & ->).
    rewrite listed_ids_keys. simpl. rewrite dict_set_keys.
    destruct (dict_get (documents (document_store self))
                (document_id_of env pdf_path)) eqn:Hg.
    + destruct (in_dec string_dec (document_id_of env pdf_path)
                  (List.map fst (documents (document_store self))));
        [assumption|].
      apply dict_get_None in n. congruence.
    + apply in_or_app. right. now left.
  - split; [intros d Hd; apply Hl, Hcur, Hd|].
    eapply Forall_impl; [exact Hhist|]. simpl. intros e He. now apply Hl.
Qed.

Lemma session_ok_ask (self : StudyMateQASystem) question document_id k :
  session_ok self ->
  session_ok (ask_question env self question document_id k).2.
Proof.
  intros (Hstore & Hcur & Hhist). unfold ask_question.
  destruct (match document_id with
            | None => current_document self
            | Some d => Some d
            end) as [d|]; [|now split].
  destruct (search_document (document_store self) d question k) eqn:Es;
    [now split|].
  simpl. split; [exact Hstore|]. split; [exact Hcur|].
  apply Forall_app. split; [exact Hhist|]. constructor; [|constructor].
  simpl. apply (engine_listed _ _ Hstore).
  unfold search_document in Es.
  destruct (dict_get (search_engines (document_store self)) d);
    [eauto|discriminate].
Qed.

Lemma session_ok_select (self : @StudyMateQASystem Index) document_id :
  session_ok self -> session_ok (select_document self document_id).2.
Proof.
  intros (Hstore & Hcur & Hhist). unfold select_document.
  rewrite find_listing_dict_get.
  destruct (dict_get (documents (document_store self)) document_id)
    as [info|] eqn:Hg; simpl; [|now split].
  split; [exact Hstore|]. split; [|constructor].
  intros d' [= <-]. rewrite listed_ids_keys.
  destruct (in_dec string_dec document_id
              (List.map fst (documents (document_store self))));
    [assumption|].
  apply dict_get_None in n. congruence.
Qed.

(** X23. A new session is in order, and [upload_document], [ask_question]
    and [select_document] keep it in order: the two dictionaries of the
    store have the same distinct keys, the current document is a listed
    document, and every entry of the conversation history names a listed
    document. *)
Theorem session_stays_ok (data_path : string) (watson : bool) :
  session_ok (@StudyMateQASystem_init Index data_path watson)
  /\ (forall self pdf_path title r self',
        session_ok self ->
        upload_document env self pdf_path title = Some (r, self') ->
        session_ok self')
  /\ (forall self question document_id k,
        session_ok self ->
        session_ok (ask_question env self question document_id k).2)
  /\ (forall (self : @StudyMateQASystem Index) document_id,
        session_ok self -> session_ok (select_document self document_id).2).
Proof.
  split; [|split; [|split]].
  - split; [split; [reflexivity|constructor]|].
    split; [discriminate|constructor].
  - intros. eapply session_ok_upload; eauto.
  - intros. now apply session_ok_ask.
  - intros. now apply session_ok_select.
Qed.

(** X24. [get_document_summary] never ends in its [except] branch; when
    it returns a summary, the document is listed, the summary is not
    empty, and the number of chunks used is at most the number of chunks
    of the document, the smaller of [max_chunks] and that number when
    [max_chunks] is not negative. *)
Theorem get_document_summary_spec
  (llm_summary : bool -> list ascii -> list ascii -> option (list ascii))
  (self : @StudyMateQASystem Index) (document_id : option string)
  (max_chunks : Z) :
  get_document_summary llm_summary self document_id max_chunks <> SummaryFailed
  /\ forall d title summary metadata used total,
       get_document_summary llm_summary self document_id max_chunks
       = Summarized d title summary metadata used total ->
       In d (listed_ids (document_store self))
       /\ summary <> []
       /\ 0 <= used <= total
       /\ (0 <= max_chunks -> used = Z.min max_chunks total).
Proof.
  unfold get_document_summary.
  destruct (match document_id with
            | None => current_document self
            | Some d => Some d
            end) as [d0|]; [|split; [discriminate|discriminate]].
  rewrite find_listing_dict_get.
  destruct (dict_get (documents (document_store self)) d0) as [info|] eqn:Hg;
    simpl; [|split; [discriminate|discriminate]].
  split; [discriminate|].
  intros d title summary metadata used total [= <- _ <- _ <- <-].
  split; [|split; [|split]].
  - rewrite listed_ids_keys.
    destruct (in_dec string_dec d0
                (List.map fst (documents (document_store self))));
      [assumption|].
    apply dict_get_None in n. congruence.
  - unfold summarize_document_section.
    destruct (llm_summary _ _ _) as [[|x s]|]; discriminate.
  - split; [apply len_nonneg|apply prefix_length_le].
  - intros Hm. now apply prefix_length.
Qed.

End SessionInvariant.

(** ** Properties of [generate_follow_up_questions] *)

Lemma follow_up_step_long questions line :
  Forall (fun q => 10 < Py.len q) questions ->
  Forall (fun q => 10 < Py.len q) (follow_up_step questions line).
Proof.
  intros Hq. unfold follow_up_step.
  destruct (_ && list_marked _); [|exact Hq].
  match goal with
  | |- context [if ?b then _ else _] => destruct b eqn:Eb
  end; [|exact Hq].
  apply andb_true_iff in Eb as [_ Hlen].
  apply Forall_app. split; [exact Hq|]. constructor; [lia|constructor].
Qed.

Lemma follow_up_fold_long lines :
  forall questions,
    Forall (fun q => 10 < Py.len q) questions ->
    Forall (fun q => 10 < Py.len q) (fold_left follow_up_step lines questions).
Proof.
  induction lines as [|line lines IH]; intros questions Hq; simpl;
    [exact Hq|].
  now apply IH, follow_up_step_long.
Qed.

(** X25. [generate_follow_up_questions] returns at most three questions,
    each longer than 10 characters; without a response of the model they
    are the three stock questions. *)
Theorem generate_follow_up_questions_bounds (response : option (list ascii)) :
  let questions := generate_follow_up_questions response in
  Py.len questions <= 3
  /\ Forall (fun q => 10 < Py.len q) questions
  /\ (response = None \/ response = Some [] -> questions = fallback_questions).
Proof.
  intros questions.
  assert (Hstock : Py.len fallback_questions <= 3
                   /\ Forall (fun q => 10 < Py.len q) fallback_questions).
  { split; [vm_compute; discriminate|].
    repeat constructor. }
  unfold questions, generate_follow_up_questions.
  destruct response as [[|c r]|].
  - destruct Hstock. repeat split; auto.
  - split; [|split].
    + rewrite prefix_length by lia. lia.
    + rewrite prefix_take by lia. apply Forall_take.
      apply follow_up_fold_long. constructor.
    + intros [E|E]; discriminate.
  - destruct Hstock. repeat split; auto.
Qed.

(** X26. When the model responds but no line of the response, trimmed,
    starts with [1.], [2.], [3.] or a dash, [generate_follow_up_questions]
    returns no question at all, not the stock questions. *)
Theorem generate_follow_up_questions_unmarked (response : list ascii) :
  response <> [] ->
  Forall (fun line => list_marked (Py.strip line) = false)
    (Py.split "010"%char response) ->
  generate_follow_up_questions (Some response) = [].
Proof.
  intros Hne Hlines. unfold generate_follow_up_questions.
  destruct response as [|c r]; [contradiction|].
  assert (Hfold : forall lines questions,
            Forall (fun line => list_marked (Py.strip line) = false) lines ->
            fold_left follow_up_step lines questions = questions).
  { induction lines as [|line lines IH]; intros questions Hl; simpl;
      [reflexivity|].
    apply Forall_cons in Hl as [Hline Hl]. rewrite <- (IH questions Hl) at 2.
    f_equal. unfold follow_up_step. rewrite Hline.
    now rewrite andb_false_r. }
  rewrite (Hfold _ [] Hlines). reflexivity.
Qed.

(** ** The further properties at concrete inputs *)

Lemma search_ranks_are_positions_witness :
  let hits : Hits := [(2 # 10, 0); (9 # 10, 1)] in
  let results :=
    search (H := scripted_index true (Some hits))
      {| se_index := 2; se_chunks := twin_chunks |}
      (list_ascii_of_string "x") 2 (3 # 10) in
  List.map c_id results = [1] /\ List.map rank_of results = [2]
  /\ Forall (result_of_hit twin_chunks (3 # 10) hits) results.
Proof.
  intros hits results. split; [reflexivity|]. split; [reflexivity|].
  exact (proj2 (proj2
    (search_ranks_are_positions (H := scripted_index true (Some hits))
       {| se_index := 2; se_chunks := twin_chunks |}
       (list_ascii_of_string "x") 2 (3 # 10) hits eq_refl))).
Defined.

Lemma search_index_error_witness :
  search (H := scripted_index true (Some [(9 # 10, 0); (8 # 10, 7)]))
    {| se_index := 8; se_chunks := twin_chunks |}
    (list_ascii_of_string "x") 2 (3 # 10) = [].
Proof.
  apply (search_index_error (H := scripted_index true (Some [(9 # 10, 0); (8 # 10, 7)]))
           {| se_index := 8; se_chunks := twin_chunks |}
           (list_ascii_of_string "x") 2 (3 # 10) [(9 # 10, 0); (8 # 10, 7)]).
  - reflexivity.
  - apply Exists_cons_tl, Exists_cons_hd. split; reflexivity.
Defined.

Lemma get_context_window_index_error_witness :
  get_context_window (Index := Z) {| se_index := 5; se_chunks := five_chunks |}
    [plain_chunk 3 []; plain_chunk 9 []] 1 = None.
Proof.
  apply get_context_window_index_error.
  apply Exists_cons_tl, Exists_cons_hd. reflexivity.
Defined.

Lemma get_context_window_ids_only_witness :
  get_context_window (Index := Z) {| se_index := 5; se_chunks := five_chunks |}
    [plain_chunk 3 []; plain_chunk 0 []] 1
  = get_context_window (Index := Z) {| se_index := 5; se_chunks := five_chunks |}
      [plain_chunk 0 []; plain_chunk 3 []; plain_chunk 3 []] 1.
Proof.
  apply get_context_window_ids_only. intros j. simpl.
  rewrite !elem_of_cons, !elem_of_nil. tauto.
Defined.

Lemma add_document_registers_witness :
  let outcome :=
    add_document (H := demo_index) demo_env (DocumentStore_init "/workspace/data")
      "doc1" [plain_chunk 0 (list_ascii_of_string "text")] None in
  outcome.1 = Returns /\ listed_ids outcome.2 = ["doc1"%string].
Proof.
  intros outcome.
  assert (E : add_document (H := demo_index) demo_env
                (DocumentStore_init "/workspace/data") "doc1"
                [plain_chunk 0 (list_ascii_of_string "text")] None
              = (Returns, outcome.2)) by reflexivity.
  split; [reflexivity|].
  exact (proj1 (proj2 (add_document_registers (H := demo_index) demo_env
                         _ _ _ _ _ E))).
Defined.

Lemma add_document_consistent_witness :
  store_consistent
    (add_document (H := demo_index) demo_env (DocumentStore_init "/workspace/data")
       "doc1" [plain_chunk 0 (list_ascii_of_string "text")] None).2.
Proof.
  apply (add_document_consistent (H := demo_index) demo_env
           (DocumentStore_init "/workspace/data")).
  split; [reflexivity|constructor].
Defined.

Lemma search_all_documents_agrees_witness :
  dict_get
    (search_all_documents (H := demo_index) (document_store demo_session)
       demo_question 5) "a.pdf_0123abcd"
  = match search_document (H := demo_index) (document_store demo_session)
            "a.pdf_0123abcd" demo_question 5 with
    | [] => None
    | c :: found => Some (c :: found)
    end.
Proof.
  apply search_all_documents_agrees.
  vm_compute. repeat constructor; rewrite ?elem_of_cons, ?elem_of_nil;
    intuition discriminate.
Defined.

Lemma get_conversation_history_last_witness :
  get_conversation_history demo_session 1 = conversation_history demo_session
  /\ get_conversation_history demo_session 0 = conversation_history demo_session.
Proof.
  split.
  - rewrite (get_conversation_history_last demo_session 1) by lia.
    vm_compute. reflexivity.
  - rewrite (get_conversation_history_last demo_session 0) by lia.
    reflexivity.
Defined.

Lemma ask_question_answers_witness :
  exists result,
    (ask_question (H := demo_index) demo_env demo_session demo_question None 5).1
    = AskAnswered result
    /\ q_document_id result = "b.pdf_0123abcd"%string
    /\ q_answer result <> [].
Proof.
  destruct (ask_question_answers (H := demo_index) demo_env demo_session
              demo_question None 5 "b.pdf_0123abcd")
    as (result & E & Hd & Hne & _).
  - vm_compute. reflexivity.
  - vm_compute. discriminate.
  - exists result. rewrite E. auto.
Defined.

Lemma upload_document_again_witness :
  match upload_document (H := demo_index) demo_env demo_session "c.pdf" None with
  | Some (r, self') =>
      upload_is_new r = Some true
      /\ upload_document (H := demo_index) demo_env self' "c.pdf" None
         = Some (UploadExisting "c.pdf_0123abcd", self')
  | None => False
  end.
Proof.
  destruct (upload_document (H := demo_index) demo_env demo_session "c.pdf" None)
    as [[r self']|] eqn:E; [|vm_compute in E; discriminate].
  assert (Hr : exists t a p n total,
            r = UploadProcessed "c.pdf_0123abcd" t a p n total).
  { vm_compute in E. injection E as <- _. repeat eexists. }
  destruct Hr as (t & a & p & n & total & ->).
  split; [reflexivity|].
  exact (proj1 (upload_document_again (H := demo_index) demo_env demo_session
                  self' "c.pdf" None None _ _ _ _ _ _ E)).
Defined.

Lemma upload_document_failure_witness :
  match upload_document (H := demo_index)
          (scripted_env false (list_ascii_of_string "Some text of a document."))
          demo_session "c.pdf" None with
  | Some (r, self') =>
      r = UploadFailed
      /\ current_document self' = current_document demo_session
      /\ conversation_history self' = conversation_history demo_session
  | None => False
  end.
Proof.
  destruct (upload_document (H := demo_index) _ demo_session "c.pdf" None)
    as [[r self']|] eqn:E; [|vm_compute in E; discriminate].
  assert (Hr : r = UploadFailed).
  { vm_compute in E. injection E as <- _. reflexivity. }
  subst r. split; [reflexivity|].
  destruct (upload_document_failure (H := demo_index) _ _ _ _ _ E)
    as (Hcur & Hhist & _).
  now split.
Defined.

Lemma select_document_listed_witness :
  select_document demo_session "nowhere.pdf_0123abcd" = (SelectNotFound, demo_session)
  /\ exists info,
       dict_get (documents (document_store demo_session)) "a.pdf_0123abcd"
       = Some info
       /\ select_document demo_session "a.pdf_0123abcd"
          = (Selected "a.pdf_0123abcd"
               (default (list_ascii_of_string "Unknown") (m_title (d_metadata info))),
             with_session demo_session (document_store demo_session)
               (Some "a.pdf_0123abcd"%string) []).
Proof.
  split.
  - apply (proj1 (select_document_listed demo_session "nowhere.pdf_0123abcd")).
    vm_compute. intuition discriminate.
  - apply (proj2 (select_document_listed demo_session "a.pdf_0123abcd")).
    vm_compute. tauto.
Defined.

Lemma session_stays_ok_witness : session_ok demo_session.
Proof.
  pose proof (session_stays_ok (H := demo_index) demo_env "/workspace/data" false)
    as (Hinit & Hupload & Hask & _).
  assert (Hup : forall s p, session_ok s ->
                  session_ok (after_upload (H := demo_index) s p)).
  { intros s p Hs. unfold after_upload.
    destruct (upload_document demo_env s p None) as [[r s']|] eqn:E;
      [|exact Hs].
    exact (Hupload _ _ _ _ _ Hs E). }
  unfold demo_session. apply Hask, Hup, Hup, Hinit.
Defined.

Lemma get_document_summary_spec_witness :
  match get_document_summary (fun _ _ _ => None) demo_session None 10 with
  | Summarized d _ summary _ used total =>
      d = "b.pdf_0123abcd"%string /\ summary <> [] /\ used = 1 /\ total = 1
  | _ => False
  end.
Proof.
  destruct (get_document_summary_spec (fun _ _ _ => None) demo_session None 10)
    as [_ Hs].
  remember (get_document_summary (fun _ _ _ => None) demo_session None 10)
    as r eqn:E.
  symmetry in E.
  destruct r; try (vm_compute in E; discriminate).
  destruct (Hs _ _ _ _ _ _ eq_refl) as (_ & Hne & _ & _).
  vm_compute in E. injection E as <- _ _ _ <- <-.
  repeat split. exact Hne.
Defined.

Lemma generate_follow_up_questions_unmarked_witness :
  generate_follow_up_questions
    (Some (list_ascii_of_string "Here are some ideas for further study")) = [].
Proof.
  apply generate_follow_up_questions_unmarked.
  - discriminate.
  - repeat constructor.
Defined.

(** ** [get_system_stats] after an upload *)

Lemma dict_set_fresh {V} (d : dict V) k v :
  dict_get d k = None -> dict_set d k v = d ++ [(k, v)].
Proof.
  induction d as [|[k' v'] d IH]; simpl; [reflexivity|].
  destruct (String.eqb k k'); [discriminate|].
  intros Hg. now rewrite IH.
Qed.

Lemma sum_Z_app (xs ys : list Z) : sum_Z (xs ++ ys) = sum_Z xs + sum_Z ys.
Proof.
  unfold sum_Z. induction xs as [|x xs IH]; simpl; [reflexivity|].
  rewrite IH. lia.
Qed.

Section StatsFacts.
Context {Index : Type} `{VectorIndex Index}.
Variable env : Environment.

(** X27. After an upload that processed a new document,
    [get_system_stats] counts one document more, the total number of
    chunks grows by the chunk count that the upload reported, the current
    document is the new one and the history is empty. *)
Theorem get_system_stats_after_upload (self self' : StudyMateQASystem)
  (pdf_path : string) (title : option (list ascii))
  (doc_id : string) (t a : list ascii) (pages n total : Z) :
  upload_document env self pdf_path title
  = Some (UploadProcessed doc_id t a pages n total, self') ->
  st_total_documents (get_system_stats self')
  = st_total_documents (get_system_stats self) + 1
  /\ st_total_chunks (get_system_stats self')
     = st_total_chunks (get_system_stats self) + n
  /\ st_current_document (get_system_stats self') = Some doc_id
  /\ st_conversation_history_length (get_system_stats self') = 0.
Proof.
  unfold upload_document.
  destruct (existsb _ _) eqn:Ex; [discriminate|].
  destruct (text_of env pdf_path) as [raw_text|]; [|discriminate].
  destruct (chunk_text _ _) as [chunks|]; [|discriminate].
  destruct (add_document _ _ _ _ _) as [[|] store'] eqn:Ea; [|discriminate].
  intros [= <- _ _ _ <- _ <-].
  destruct (add_document_returns env _ _ _ _ _ Ea) as (engine & _ & ->).
  assert (Hfresh : dict_get (documents (document_store self))
                     (document_id_of env pdf_path) = None).
  { apply dict_get_None. rewrite <- listed_ids_keys. intros Hin.
    apply existsb_listing in Hin. congruence. }
  unfold get_system_stats, get_available_documents, get_document_list.
  simpl. rewrite (dict_set_fresh _ _ _ Hfresh), !map_app.
  split; [|split; [|split; reflexivity]].
  - unfold Py.len. rewrite length_app. simpl. lia.
  - rewrite sum_Z_app. simpl. lia.
Qed.

End StatsFacts.

Lemma get_system_stats_after_upload_witness :
  match upload_document (H := demo_index) demo_env demo_session "c.pdf" None with
  | Some (r, self') =>
      st_total_documents (get_system_stats demo_session) = 2
      /\ st_total_documents (get_system_stats self') = 3
      /\ st_total_chunks (get_system_stats self')
         = st_total_chunks (get_system_stats demo_session) + 1
  | None => False
  end.
Proof.
  destruct (upload_document (H := demo_index) demo_env demo_session "c.pdf" None)
    as [[r self']|] eqn:E; [|vm_compute in E; discriminate].
  assert (Hr : exists t a p total,
            r = UploadProcessed "c.pdf_0123abcd" t a p 1 total).
  { vm_compute in E. injection E as <- _. repeat eexists. }
  destruct Hr as (t & a & p & total & ->).
  destruct (get_system_stats_after_upload (H := demo_index) demo_env
              demo_session self' "c.pdf" None _ _ _ _ _ _ E)
    as (Hdocs & Hchunks & _).
  split; [reflexivity|]. split; [|exact Hchunks].
  rewrite Hdocs. reflexivity.
Defined.
